(** * TEN runtime: the Extension-Context, the tester log binding, the
    long-running ping-pong graph and the board pins.

    The development follows the C sources function by function.  Code that
    mutates the engine, the extension context or the start_graph command is
    written in a small state monad; a violated [TEN_ASSERT] aborts the run.
    What the runtime does to the outside (log lines, addon requests, thread
    control, callbacks) is recorded as a list of effects. *)

From Stdlib Require Import String Ascii List Bool Arith ZArith Lia Permutation.
Import ListNotations.
Local Open Scope string_scope.
Local Open Scope list_scope.

(** ** Runs: state passing with assertion failures *)

Inductive outcome (A : Type) : Type :=
| Done (a : A)
| Aborted (why : string).
Arguments Done {A} a.
Arguments Aborted {A} why.

Definition run (S A : Type) : Type := S -> outcome (A * S).

Definition ret {S A : Type} (a : A) : run S A := fun s => Done (a, s).

Definition bind {S A B : Type} (m : run S A) (k : A -> run S B) : run S B :=
  fun s => match m s with
           | Done (a, s') => k a s'
           | Aborted why => Aborted why
           end.

Definition get {S : Type} : run S S := fun s => Done (s, s).

Definition modify {S : Type} (f : S -> S) : run S unit := fun s => Done (tt, f s).

(** [TEN_ASSERT(expr, fmt)]: the run stops when [expr] is false. *)
Definition TEN_ASSERT {S : Type} (expr : bool) (fmt : string) : run S unit :=
  fun s => if expr then Done (tt, s) else Aborted fmt.

Declare Scope run_scope.
Delimit Scope run_scope with run.
Notation "x <- m ;; k" := (bind m (fun x => k))
  (at level 61, m at next level, right associativity) : run_scope.
Notation "m ;; k" := (bind m (fun _ => k))
  (at level 61, right associativity) : run_scope.

(** The double quote character, for the format strings that contain one. *)
Definition dquote : string := String (ascii_of_nat 34) EmptyString.

(** ** extension_context.c *)

Module ExtensionContext.

Local Open Scope run_scope.

(** *** Data *)

Record ten_loc_t : Type := mk_loc {
  app_uri : string;
  graph_id : string;
  extension_name : string }.

Record ten_extension_info_t : Type := mk_extension_info {
  extension_addon_name : string;
  extension_group_name : string;
  ei_loc : ten_loc_t }.

Record ten_extension_group_info_t : Type := mk_extension_group_info {
  extension_group_addon_name : string;
  extension_group_instance_name : string;
  gi_loc : ten_loc_t }.

Inductive TEN_MSG_TYPE : Type :=
| TEN_MSG_TYPE_CMD
| TEN_MSG_TYPE_CMD_RESULT
| TEN_MSG_TYPE_CMD_START_GRAPH
| TEN_MSG_TYPE_CMD_STOP_GRAPH
| TEN_MSG_TYPE_CMD_CLOSE_APP
| TEN_MSG_TYPE_CMD_TIMER
| TEN_MSG_TYPE_DATA
| TEN_MSG_TYPE_AUDIO_FRAME
| TEN_MSG_TYPE_VIDEO_FRAME.

Definition is_start_graph (t : TEN_MSG_TYPE) : bool :=
  match t with TEN_MSG_TYPE_CMD_START_GRAPH => true | _ => false end.

(** The start_graph command the engine keeps: its type, its destinations
    and the two info lists the extension context takes over. *)
Record ten_cmd_start_graph_t : Type := mk_cmd {
  msg_type : TEN_MSG_TYPE;
  msg_dests : list ten_loc_t;
  cmd_extensions_info : list ten_extension_info_t;
  cmd_extension_groups_info : list ten_extension_group_info_t }.

Inductive TEN_ERROR_CODE : Type :=
| TEN_ERROR_CODE_OK
| TEN_ERROR_CODE_GENERIC
| TEN_ERROR_CODE_INVALID_ARGUMENT
| TEN_ERROR_CODE_INVALID_JSON
| TEN_ERROR_CODE_TEN_IS_CLOSED
| TEN_ERROR_CODE_MSG_NOT_CONNECTED
| TEN_ERROR_CODE_TIMEOUT.

Record ten_error_t : Type := mk_error {
  error_code : TEN_ERROR_CODE;
  error_message : string }.

(** [ten_error_set(err, code, fmt, ...)] with the message already formatted. *)
Definition ten_error_set (err : ten_error_t) (code : TEN_ERROR_CODE)
  (message : string) : ten_error_t :=
  {| error_code := code; error_message := message |}.

(** An extension thread, as the context sees it: a handle and the group it
    was attached to. *)
Record ten_extension_thread_t : Type := mk_thread {
  thread_id : nat;
  thread_extension_group : string }.

Definition thread_eqb (a b : ten_extension_thread_t) : bool :=
  Nat.eqb (thread_id a) (thread_id b)
  && String.eqb (thread_extension_group a) (thread_extension_group b).

Record ten_app_t : Type := mk_app {
  uri : string;
  base_dir : string }.

(** The extension group instance an addon hands to the completion callback. *)
Record ten_extension_group_t : Type := mk_extension_group {
  name : string;
  addon_host_name : string;
  group_app : option ten_app_t;
  group_extension_context_bound : bool;
  extension_addon_and_instance_name_pairs : list (string * string);
  extension_thread : option ten_extension_thread_t;
  extension_group_info : option ten_extension_group_info_t }.

Record ten_extension_context_t : Type := mk_context {
  signature : bool;
  on_closed : option nat;
  extension_groups_info_from_graph : list ten_extension_group_info_t;
  extensions_info_from_graph : list ten_extension_info_t;
  extension_threads : list ten_extension_thread_t;
  extension_threads_cnt_of_ready : nat;
  extension_threads_cnt_of_closed : nat;
  extension_threads_total_cnt : nat }.

Inductive log_level : Type := LOGD | LOGE | LOGM.

Inductive effect : Type :=
| Log (level : log_level) (text : string)
| Addon_create_extension_group (addon_name instance_name : string)
| Extension_thread_start (t : ten_extension_thread_t)
| Extension_thread_close (t : ten_extension_thread_t)
| Ten_env_close
| On_closed (on_closed_data : nat)
| Extension_context_free.

(** The engine with everything the extension context reaches through it.
    [effects] is the record of what was done to the outside, oldest first;
    [threads_created] numbers the handles [ten_extension_thread_create]
    gives out. *)
Record ten_engine_t : Type := mk_engine {
  app : ten_app_t;
  engine_id : string;
  graph_name : string;
  original_start_graph_cmd_of_enabling_engine : ten_cmd_start_graph_t;
  extension_context : ten_extension_context_t;
  effects : list effect;
  threads_created : nat }.

Definition with_context (f : ten_extension_context_t -> ten_extension_context_t)
  (e : ten_engine_t) : ten_engine_t :=
  mk_engine (app e) (engine_id e) (graph_name e)
    (original_start_graph_cmd_of_enabling_engine e)
    (f (extension_context e)) (effects e) (threads_created e).

Definition with_cmd (f : ten_cmd_start_graph_t -> ten_cmd_start_graph_t)
  (e : ten_engine_t) : ten_engine_t :=
  mk_engine (app e) (engine_id e) (graph_name e)
    (f (original_start_graph_cmd_of_enabling_engine e))
    (extension_context e) (effects e) (threads_created e).

Definition with_effect (x : effect) (e : ten_engine_t) : ten_engine_t :=
  mk_engine (app e) (engine_id e) (graph_name e)
    (original_start_graph_cmd_of_enabling_engine e)
    (extension_context e) (effects e ++ [x]) (threads_created e).

Definition emit (x : effect) : run ten_engine_t unit := modify (with_effect x).

Definition set_extensions_info_from_graph (l : list ten_extension_info_t)
  (c : ten_extension_context_t) : ten_extension_context_t :=
  mk_context (signature c) (on_closed c) (extension_groups_info_from_graph c) l
    (extension_threads c) (extension_threads_cnt_of_ready c)
    (extension_threads_cnt_of_closed c) (extension_threads_total_cnt c).

Definition set_extension_groups_info_from_graph
  (l : list ten_extension_group_info_t)
  (c : ten_extension_context_t) : ten_extension_context_t :=
  mk_context (signature c) (on_closed c) l (extensions_info_from_graph c)
    (extension_threads c) (extension_threads_cnt_of_ready c)
    (extension_threads_cnt_of_closed c) (extension_threads_total_cnt c).

Definition set_extension_threads (l : list ten_extension_thread_t)
  (c : ten_extension_context_t) : ten_extension_context_t :=
  mk_context (signature c) (on_closed c) (extension_groups_info_from_graph c)
    (extensions_info_from_graph c) l (extension_threads_cnt_of_ready c)
    (extension_threads_cnt_of_closed c) (extension_threads_total_cnt c).

Definition set_close_counters (closed total : nat)
  (c : ten_extension_context_t) : ten_extension_context_t :=
  mk_context (signature c) (on_closed c) (extension_groups_info_from_graph c)
    (extensions_info_from_graph c) (extension_threads c)
    (extension_threads_cnt_of_ready c) closed total.

Definition set_on_closed (cb : option nat)
  (c : ten_extension_context_t) : ten_extension_context_t :=
  mk_context (signature c) cb (extension_groups_info_from_graph c)
    (extensions_info_from_graph c) (extension_threads c)
    (extension_threads_cnt_of_ready c) (extension_threads_cnt_of_closed c)
    (extension_threads_total_cnt c).

Definition set_signature (b : bool)
  (c : ten_extension_context_t) : ten_extension_context_t :=
  mk_context b (on_closed c) (extension_groups_info_from_graph c)
    (extensions_info_from_graph c) (extension_threads c)
    (extension_threads_cnt_of_ready c) (extension_threads_cnt_of_closed c)
    (extension_threads_total_cnt c).

Definition set_cmd_extensions_info (l : list ten_extension_info_t)
  (c : ten_cmd_start_graph_t) : ten_cmd_start_graph_t :=
  mk_cmd (msg_type c) (msg_dests c) l (cmd_extension_groups_info c).

Definition set_cmd_extension_groups_info (l : list ten_extension_group_info_t)
  (c : ten_cmd_start_graph_t) : ten_cmd_start_graph_t :=
  mk_cmd (msg_type c) (msg_dests c) (cmd_extensions_info c) l.

(** *** Functions, in the order of the source file *)

(** [signature] is true while the context carries
    TEN_EXTENSION_CONTEXT_SIGNATURE and false once destroy has zeroed it.
    The thread check of the sanitizer always passes here: every function of
    this file runs on the engine thread. *)
Definition ten_extension_context_check_integrity
  (self : ten_extension_context_t) (check_thread : bool) : bool :=
  signature self.

Definition check_self (check_thread : bool) : run ten_engine_t unit :=
  e <- get ;;
  TEN_ASSERT
    (ten_extension_context_check_integrity (extension_context e) check_thread)
    "Invalid use of extension_context.".

(** [ten_extension_context_create]: TEN_MALLOC, then every field set but
    [extension_threads_total_cnt], whose content is whatever the allocator
    left there ([uninitialised_total_cnt]). *)
Definition ten_extension_context_create (engine_id : string)
  (uninitialised_total_cnt : nat) : ten_extension_context_t * list effect :=
  ({| signature := true;
      on_closed := None;
      extension_groups_info_from_graph := [];
      extensions_info_from_graph := [];
      extension_threads := [];
      extension_threads_cnt_of_ready := 0;
      extension_threads_cnt_of_closed := 0;
      extension_threads_total_cnt := uninitialised_total_cnt |},
   [Log LOGD ("[" ++ engine_id ++ "] Create Extension context")]).

Definition ten_extension_context_destroy : run ten_engine_t unit :=
  check_self true ;;
  e <- get ;;
  TEN_ASSERT (List.length (extension_threads (extension_context e)) =? 0)%nat
    "Should not happen." ;;
  modify (with_context (set_extension_groups_info_from_graph [])) ;;
  modify (with_context (set_extensions_info_from_graph [])) ;;
  modify (with_context (set_signature false)) ;;
  emit Extension_context_free.

Fixpoint start_each (l : list ten_extension_thread_t) : run ten_engine_t unit :=
  match l with
  | [] => ret tt
  | t :: rest => emit (Extension_thread_start t) ;; start_each rest
  end.

Definition ten_extension_context_start : run ten_engine_t unit :=
  check_self true ;;
  e <- get ;;
  start_each (extension_threads (extension_context e)).

Definition ten_extension_context_do_close_after_all_extension_threads_are_closed
  : run ten_engine_t unit :=
  check_self true ;;
  emit Ten_env_close ;;
  e <- get ;;
  match on_closed (extension_context e) with
  | Some on_closed_data => emit (On_closed on_closed_data)
  | None => ret tt
  end ;;
  ten_extension_context_destroy.

Fixpoint close_each (l : list ten_extension_thread_t) : run ten_engine_t unit :=
  match l with
  | [] => ret tt
  | t :: rest => emit (Extension_thread_close t) ;; close_each rest
  end.

Definition ten_extension_context_close : run ten_engine_t unit :=
  check_self true ;;
  e <- get ;;
  emit (Log LOGD ("[" ++ engine_id e ++ "] Try to close extension context")) ;;
  match extension_threads (extension_context e) with
  | [] => ten_extension_context_do_close_after_all_extension_threads_are_closed
  | _ :: _ =>
      modify (with_context
                (set_close_counters 0
                   (List.length (extension_threads (extension_context e))))) ;;
      close_each (extension_threads (extension_context e))
  end.

Definition ten_extension_context_could_be_close
  (self : ten_extension_context_t) : bool :=
  (extension_threads_cnt_of_closed self =? extension_threads_total_cnt self)%nat.

Definition ten_extension_context_do_close : run ten_engine_t unit :=
  check_self true ;;
  e <- get ;;
  TEN_ASSERT
    (match extension_threads (extension_context e) with
     | [] => true
     | _ :: _ => false
     end) "Should not happen." ;;
  ten_extension_context_do_close_after_all_extension_threads_are_closed.

Definition ten_extension_context_on_close : run ten_engine_t unit :=
  check_self true ;;
  e <- get ;;
  if negb (ten_extension_context_could_be_close (extension_context e)) then
    emit (Log LOGD
            ("[" ++ engine_id e ++ "] Could not close alive extension context"))
  else
    emit (Log LOGD
            ("[" ++ engine_id e ++ "] Extension context can be closed now")) ;;
    ten_extension_context_do_close.

Definition ten_extension_context_set_on_closed (cb : option nat)
  : run ten_engine_t unit :=
  check_self true ;;
  modify (with_context (set_on_closed cb)).

(** A [const char *] argument is an [option string]: [None] is NULL.
    [given_and_differs c s] is the test
    [c && !ten_string_is_equal_c_str(&s, c)]. *)
Definition given_and_differs (c_str : option string) (s : string) : bool :=
  match c_str with
  | Some c => negb (String.eqb s c)
  | None => false
  end.

Definition given (c_str : option string) : bool :=
  match c_str with Some _ => true | None => false end.

(** The loop of [ten_extension_context_get_extension_info_by_name]: each
    failed comparison is a [continue], the first record that passes all
    three is kept and ends the loop. *)
Fixpoint find_extension_info (l : list ten_extension_info_t)
  (c_app_uri c_graph_id c_extension_name : option string)
  : option ten_extension_info_t :=
  match l with
  | [] => None
  | extension_info :: rest =>
      if given_and_differs c_app_uri (app_uri (ei_loc extension_info)) then
        find_extension_info rest c_app_uri c_graph_id c_extension_name
      else if given_and_differs c_graph_id (graph_id (ei_loc extension_info)) then
        find_extension_info rest c_app_uri c_graph_id c_extension_name
      else if given_and_differs c_extension_name
                (extension_name (ei_loc extension_info)) then
        find_extension_info rest c_app_uri c_graph_id c_extension_name
      else Some extension_info
  end.

Definition ten_extension_context_get_extension_info_by_name
  (c_app_uri c_graph_id c_extension_name : option string) (check_thread : bool)
  : run ten_engine_t (option ten_extension_info_t) :=
  check_self check_thread ;;
  TEN_ASSERT (given c_app_uri && given c_extension_name) "Should not happen." ;;
  e <- get ;;
  ret (find_extension_info (extensions_info_from_graph (extension_context e))
         c_app_uri c_graph_id c_extension_name).

Fixpoint find_extension_group_info (l : list ten_extension_group_info_t)
  (the_app_uri extension_group_name : string)
  : option ten_extension_group_info_t :=
  match l with
  | [] => None
  | extension_group_info :: rest =>
      if String.eqb (app_uri (gi_loc extension_group_info)) the_app_uri
         && String.eqb (extension_group_instance_name extension_group_info)
              extension_group_name
      then Some extension_group_info
      else find_extension_group_info rest the_app_uri extension_group_name
  end.

Definition ten_extension_context_get_extension_group_info_by_name
  (the_app_uri extension_group_name : string)
  : run ten_engine_t (option ten_extension_group_info_t) :=
  check_self false ;;
  e <- get ;;
  ret (find_extension_group_info
         (extension_groups_info_from_graph (extension_context e))
         the_app_uri extension_group_name).

(** [ten_list_swap] between the context's list and the command's list. *)
Definition ten_extension_context_add_extensions_info_from_graph
  : run ten_engine_t unit :=
  check_self true ;;
  e <- get ;;
  TEN_ASSERT
    (List.length (extensions_info_from_graph (extension_context e)) =? 0)%nat
    "Should not happen." ;;
  modify (with_context
            (set_extensions_info_from_graph
               (cmd_extensions_info
                  (original_start_graph_cmd_of_enabling_engine e)))) ;;
  modify (with_cmd
            (set_cmd_extensions_info
               (extensions_info_from_graph (extension_context e)))).

Definition ten_extension_context_add_extension_groups_info_from_graph
  : run ten_engine_t unit :=
  check_self true ;;
  e <- get ;;
  TEN_ASSERT
    (List.length (extension_groups_info_from_graph (extension_context e)) =? 0)%nat
    "Should not happen." ;;
  modify (with_context
            (set_extension_groups_info_from_graph
               (cmd_extension_groups_info
                  (original_start_graph_cmd_of_enabling_engine e)))) ;;
  modify (with_cmd
            (set_cmd_extension_groups_info
               (extension_groups_info_from_graph (extension_context e)))).

Definition nonempty (s : string) : bool :=
  match s with EmptyString => false | String _ _ => true end.

(** One key of the logged object: [<quote>key<quote>: <quote>value<quote>]. *)
Definition json_member (key value : string) : string :=
  dquote ++ key ++ dquote ++ ": " ++ dquote ++ value ++ dquote.

Definition graph_resources_json (e : ten_engine_t) : string :=
  json_member "app_base_dir" (base_dir (app e))
  ++ (if nonempty (uri (app e))
      then ", " ++ json_member "app_uri" (uri (app e)) else EmptyString)
  ++ (if nonempty (graph_name e)
      then ", " ++ json_member "graph_name" (graph_name e) else EmptyString)
  ++ ", " ++ json_member "graph_id" (engine_id e).

Definition graph_resources_line (e : ten_engine_t) : string :=
  "[graph resources] {" ++ graph_resources_json e ++ "}".

Definition ten_extension_context_log_graph_resources : run ten_engine_t unit :=
  check_self true ;;
  e <- get ;;
  emit (Log LOGM (graph_resources_line e)).

(** Modelled from the spec: TEN_STR_DEFAULT_EXTENSION_GROUP of
    common/constant_str.h, which is not among the sources; the spec names
    the built-in group addon default_extension_group. *)
Definition TEN_STR_DEFAULT_EXTENSION_GROUP : string := "default_extension_group".

(** Modelled from the spec: the getter
    ten_cmd_start_graph_get_extension_addon_and_instance_name_pairs_of_specified_extension_group
    of msg/cmd_base/cmd/start_graph, which is not among the sources.  It
    gives the (extension_addon_name, extension_instance_name) pairs that the
    StartGraph command scheduled into the group: one pair, in graph order,
    for every extension info whose group, app uri and graph id are the ones
    asked for. *)
Definition scheduled_into (the_app_uri the_graph_id extension_group : string)
  (i : ten_extension_info_t) : bool :=
  String.eqb (extension_group_name i) extension_group
  && String.eqb (app_uri (ei_loc i)) the_app_uri
  && String.eqb (graph_id (ei_loc i)) the_graph_id.

Definition addon_and_instance_name_pair (i : ten_extension_info_t)
  : string * string :=
  (extension_addon_name i, extension_name (ei_loc i)).

Definition
  ten_cmd_start_graph_get_extension_addon_and_instance_name_pairs_of_specified_extension_group
  (cmd : ten_cmd_start_graph_t) (the_app_uri the_graph_id extension_group : string)
  : list (string * string) :=
  map addon_and_instance_name_pair
    (filter (scheduled_into the_app_uri the_graph_id extension_group)
       (cmd_extensions_info cmd)).

Definition set_pairs (l : list (string * string)) (g : ten_extension_group_t)
  : ten_extension_group_t :=
  mk_extension_group (name g) (addon_host_name g) (group_app g)
    (group_extension_context_bound g) l (extension_thread g)
    (extension_group_info g).

Definition bind_to (a : ten_app_t) (g : ten_extension_group_t)
  : ten_extension_group_t :=
  mk_extension_group (name g) (addon_host_name g) (Some a) true
    (extension_addon_and_instance_name_pairs g) (extension_thread g)
    (extension_group_info g).

Definition set_extension_thread (t : ten_extension_thread_t)
  (g : ten_extension_group_t) : ten_extension_group_t :=
  mk_extension_group (name g) (addon_host_name g) (group_app g)
    (group_extension_context_bound g)
    (extension_addon_and_instance_name_pairs g) (Some t)
    (extension_group_info g).

Definition set_extension_group_info (i : option ten_extension_group_info_t)
  (g : ten_extension_group_t) : ten_extension_group_t :=
  mk_extension_group (name g) (addon_host_name g) (group_app g)
    (group_extension_context_bound g)
    (extension_addon_and_instance_name_pairs g) (extension_thread g) i.

(** [ten_extension_thread_create] followed by
    [ten_extension_thread_attach_to_context_and_group]: a new handle,
    attached to the group; the thread is not started. *)
Definition ten_extension_thread_create (extension_group : ten_extension_group_t)
  : run ten_engine_t ten_extension_thread_t :=
  e <- get ;;
  modify (fun e => mk_engine (app e) (engine_id e) (graph_name e)
                     (original_start_graph_cmd_of_enabling_engine e)
                     (extension_context e) (effects e)
                     (S (threads_created e))) ;;
  ret (mk_thread (threads_created e) (name extension_group)).

Definition is_local (a : ten_app_t) (i : ten_extension_group_info_t) : bool :=
  String.eqb (app_uri (gi_loc i)) (uri a).

(** The counting loop of the completion callback. *)
Fixpoint extension_groups_cnt_of_the_current_app (a : ten_app_t)
  (l : list ten_extension_group_info_t) : nat :=
  match l with
  | [] => 0
  | i :: rest =>
      if is_local a i
      then S (extension_groups_cnt_of_the_current_app a rest)
      else extension_groups_cnt_of_the_current_app a rest
  end.

Definition ten_extension_context_create_extension_group_done
  (extension_group : ten_extension_group_t)
  : run ten_engine_t ten_extension_group_t :=
  check_self true ;;
  e <- get ;;
  let original_start_graph_cmd := original_start_graph_cmd_of_enabling_engine e in
  let extension_group := bind_to (app e) extension_group in
  extension_group <-
    (if String.eqb (addon_host_name extension_group)
          TEN_STR_DEFAULT_EXTENSION_GROUP
     then
       TEN_ASSERT
         (is_start_graph (msg_type original_start_graph_cmd)
          && (List.length (msg_dests original_start_graph_cmd) =? 1)%nat)
         "Should not happen." ;;
       match msg_dests original_start_graph_cmd with
       | dest_loc :: _ =>
           ret (set_pairs
                  (ten_cmd_start_graph_get_extension_addon_and_instance_name_pairs_of_specified_extension_group
                     original_start_graph_cmd (app_uri dest_loc)
                     (graph_id dest_loc) (name extension_group))
                  extension_group)
       | [] => (fun _ => Aborted "Should not happen.")
       end
     else ret extension_group) ;;
  extension_thread <- ten_extension_thread_create extension_group ;;
  let extension_group := set_extension_thread extension_thread extension_group in
  modify (with_context
            (fun c => set_extension_threads
                        (extension_threads c ++ [extension_thread]) c)) ;;
  e <- get ;;
  if (extension_groups_cnt_of_the_current_app (app e)
        (cmd_extension_groups_info original_start_graph_cmd)
      =? List.length (extension_threads (extension_context e)))%nat
  then
    ten_extension_context_add_extensions_info_from_graph ;;
    ten_extension_context_add_extension_groups_info_from_graph ;;
    info <- ten_extension_context_get_extension_group_info_by_name
              (uri (app e)) (name extension_group) ;;
    TEN_ASSERT (match info with Some _ => true | None => false end)
      "Should not happen." ;;
    ten_extension_context_log_graph_resources ;;
    ten_extension_context_start ;;
    ret (set_extension_group_info info extension_group)
  else ret extension_group.

Section Addons.

(** [ten_addon_create_extension_group] belongs to the addon store, which is
    not among the sources.  What this file relies on is its answer: false
    when no extension group addon of that name can be found, true when the
    creation was posted; the completion callback then runs later, on the
    engine thread.  [addon_found] is that lookup. *)
Variable addon_found : string -> bool.

Definition ten_addon_create_extension_group (addon_name instance_name : string)
  : run ten_engine_t bool :=
  if addon_found addon_name
  then emit (Addon_create_extension_group addon_name instance_name) ;; ret true
  else ret false.

Definition unable_to_find (addon_name : string) : string :=
  "Unable to find " ++ addon_name.

(** An extension group info of this app whose addon cannot be found. *)
Definition unresolved (a : ten_app_t) (i : ten_extension_group_info_t) : bool :=
  String.eqb (app_uri (gi_loc i)) (uri a)
  && negb (addon_found (extension_group_addon_name i)).

(** The [ten_list_foreach] of [ten_extension_context_start_extension_group]. *)
Fixpoint start_each_extension_group (l : list ten_extension_group_info_t)
  (err : option ten_error_t) : run ten_engine_t (bool * option ten_error_t) :=
  match l with
  | [] => ret (true, err)
  | extension_group_info :: rest =>
      e <- get ;;
      if String.eqb (app_uri (gi_loc extension_group_info)) (uri (app e)) then
        res <- ten_addon_create_extension_group
                 (extension_group_addon_name extension_group_info)
                 (extension_group_instance_name extension_group_info) ;;
        if negb res then
          emit (Log LOGE
                  ("[" ++ engine_id e
                   ++ "] Failed to start the extension group, because unable to find "
                   ++ "the specified extension group addon: "
                   ++ extension_group_addon_name extension_group_info)) ;;
          ret (false,
               match err with
               | Some err =>
                   Some (ten_error_set err TEN_ERROR_CODE_GENERIC
                           (unable_to_find
                              (extension_group_addon_name extension_group_info)))
               | None => None
               end)
        else start_each_extension_group rest err
      else start_each_extension_group rest err
  end.

Definition ten_extension_context_start_extension_group
  (err : option ten_error_t) : run ten_engine_t (bool * option ten_error_t) :=
  check_self true ;;
  e <- get ;;
  let extension_groups_info :=
    cmd_extension_groups_info (original_start_graph_cmd_of_enabling_engine e) in
  match extension_groups_info with
  | [] =>
      ten_extension_context_add_extensions_info_from_graph ;;
      ten_extension_context_add_extension_groups_info_from_graph ;;
      ten_extension_context_start ;;
      ret (true, err)
  | _ :: _ => start_each_extension_group extension_groups_info err
  end.

End Addons.

Definition ten_extension_context_get_extension_group_name
  (c_app_uri c_graph_id c_extension_name : option string) (check_thread : bool)
  : run ten_engine_t (option string) :=
  check_self check_thread ;;
  extension_info <- ten_extension_context_get_extension_info_by_name
                      c_app_uri c_graph_id c_extension_name check_thread ;;
  match extension_info with
  | None => ret None
  | Some extension_info => ret (Some (extension_group_name extension_info))
  end.

(** *** Notions used to state what the functions did *)

Definition with_effects (xs : list effect) (e : ten_engine_t) : ten_engine_t :=
  mk_engine (app e) (engine_id e) (graph_name e)
    (original_start_graph_cmd_of_enabling_engine e)
    (extension_context e) (effects e ++ xs) (threads_created e).

(** The request the start loop posts for one extension group info. *)
Definition creation_request (i : ten_extension_group_info_t) : effect :=
  Addon_create_extension_group (extension_group_addon_name i)
    (extension_group_instance_name i).

Definition failed_to_start_line (e : ten_engine_t)
  (i : ten_extension_group_info_t) : string :=
  "[" ++ engine_id e
  ++ "] Failed to start the extension group, because unable to find "
  ++ "the specified extension group addon: "
  ++ extension_group_addon_name i.

(** An engine right after [ten_extension_context_create]: the context is the
    created one, nothing was done yet beyond the creation log line. *)
Definition engine_with_fresh_context (a : ten_app_t) (id gname : string)
  (cmd : ten_cmd_start_graph_t) (uninitialised_total_cnt : nat) : ten_engine_t :=
  let created := ten_extension_context_create id uninitialised_total_cnt in
  mk_engine a id gname cmd (fst created) (snd created) 0.

(** The group as the completion callback leaves it before the thread is
    made: bound to the app and the context and, for the built-in group
    addon, filled with the pairs of the command. *)
Definition filled_group (e : ten_engine_t) (g : ten_extension_group_t)
  : ten_extension_group_t :=
  if String.eqb (addon_host_name g) TEN_STR_DEFAULT_EXTENSION_GROUP then
    match msg_dests (original_start_graph_cmd_of_enabling_engine e) with
    | dest_loc :: _ =>
        set_pairs
          (ten_cmd_start_graph_get_extension_addon_and_instance_name_pairs_of_specified_extension_group
             (original_start_graph_cmd_of_enabling_engine e)
             (app_uri dest_loc) (graph_id dest_loc) (name g))
          (bind_to (app e) g)
    | [] => bind_to (app e) g
    end
  else bind_to (app e) g.

Definition new_thread (e : ten_engine_t) (g : ten_extension_group_t)
  : ten_extension_thread_t :=
  mk_thread (threads_created e) (name g).

(** The engine once the thread of [g] is made and registered. *)
Definition registered (e : ten_engine_t) (g : ten_extension_group_t)
  : ten_engine_t :=
  mk_engine (app e) (engine_id e) (graph_name e)
    (original_start_graph_cmd_of_enabling_engine e)
    (set_extension_threads
       (extension_threads (extension_context e) ++ [new_thread e g])
       (extension_context e))
    (effects e) (S (threads_created e)).

(** The engine once both lists of the command were swapped into a context
    whose own lists were empty. *)
Definition installed (e : ten_engine_t) : ten_engine_t :=
  mk_engine (app e) (engine_id e) (graph_name e)
    (mk_cmd (msg_type (original_start_graph_cmd_of_enabling_engine e))
       (msg_dests (original_start_graph_cmd_of_enabling_engine e)) [] [])
    (set_extension_groups_info_from_graph
       (cmd_extension_groups_info (original_start_graph_cmd_of_enabling_engine e))
       (set_extensions_info_from_graph
          (cmd_extensions_info (original_start_graph_cmd_of_enabling_engine e))
          (extension_context e)))
    (effects e) (threads_created e).

(** The default-group precondition of the completion callback: the kept
    command is a start_graph command with exactly one destination. *)
Definition start_graph_with_one_dest (c : ten_cmd_start_graph_t) : bool :=
  is_start_graph (msg_type c) && (List.length (msg_dests c) =? 1)%nat.

(** The instance the addon store builds for a posted creation: named after
    the instance name, hosted by the addon of that name, nothing else set. *)
Definition created_extension_group (i : ten_extension_group_info_t)
  : ten_extension_group_t :=
  mk_extension_group (extension_group_instance_name i)
    (extension_group_addon_name i) None false [] None None.

(** The completion callbacks of the posted creations, run one after the
    other on the engine thread, in the order the addons finish. *)
Fixpoint complete_creations (l : list ten_extension_group_info_t)
  : run ten_engine_t (list ten_extension_group_t) :=
  match l with
  | [] => ret []
  | i :: rest =>
      g <- ten_extension_context_create_extension_group_done
             (created_extension_group i) ;;
      gs <- complete_creations rest ;;
      ret (g :: gs)
  end.

(** The handles given out, from number [k] on, to the groups of [l]. *)
Fixpoint threads_for (k : nat) (l : list ten_extension_group_info_t)
  : list ten_extension_thread_t :=
  match l with
  | [] => []
  | i :: rest =>
      mk_thread k (extension_group_instance_name i) :: threads_for (S k) rest
  end.

Fixpoint registered_all (l : list ten_extension_group_info_t)
  (e : ten_engine_t) : ten_engine_t :=
  match l with
  | [] => e
  | i :: rest => registered_all rest (registered e (created_extension_group i))
  end.

Definition is_graph_resources_log (x : effect) : bool :=
  match x with
  | Log LOGM text => String.prefix "[graph resources] {" text
  | _ => false
  end.

Definition is_thread_start (x : effect) : bool :=
  match x with Extension_thread_start _ => true | _ => false end.

(** [ten_list_remove_ptr]: the first node that holds the pointer goes. *)
Fixpoint ten_list_remove_ptr (t : ten_extension_thread_t)
  (l : list ten_extension_thread_t) : list ten_extension_thread_t :=
  match l with
  | [] => []
  | x :: rest => if thread_eqb t x then rest else x :: ten_list_remove_ptr t rest
  end.

(** Modelled from the spec: the engine's handling of the closed notification
    of an extension thread, which is part of engine/internal and not among
    the sources.  The close sequence says that each thread reports back when
    it reaches Closed, and that the engine then increments closed_count and,
    when closed_count == total_count, runs the terminal step; the comment in
    [ten_extension_context_could_be_close] adds that by then all extension
    threads have been removed from the extension context.  So: take the
    thread off [extension_threads], count it, and call
    [ten_extension_context_on_close]. *)
Definition ten_engine_on_extension_thread_closed (t : ten_extension_thread_t)
  : run ten_engine_t unit :=
  modify (with_context
            (fun c => set_extension_threads
                        (ten_list_remove_ptr t (extension_threads c)) c)) ;;
  modify (with_context
            (fun c => set_close_counters
                        (S (extension_threads_cnt_of_closed c))
                        (extension_threads_total_cnt c) c)) ;;
  ten_extension_context_on_close.

(** The closed notifications of the threads of [l], in that order. *)
Fixpoint thread_closed_notifications (l : list ten_extension_thread_t)
  : run ten_engine_t unit :=
  match l with
  | [] => ret tt
  | t :: rest =>
      ten_engine_on_extension_thread_closed t ;;
      thread_closed_notifications rest
  end.

(** What the terminal step of the close sequence does to the outside: the
    ten_env of the engine is closed, the on_closed callback runs when one is
    set, the context is freed. *)
Definition terminal_step (c : ten_extension_context_t) : list effect :=
  Ten_env_close
  :: match on_closed c with
     | Some on_closed_data => [On_closed on_closed_data]
     | None => []
     end
  ++ [Extension_context_free].

Definition is_terminal_effect (x : effect) : bool :=
  match x with
  | Ten_env_close | On_closed _ | Extension_context_free => true
  | _ => false
  end.

Definition try_to_close_line (e : ten_engine_t) : string :=
  "[" ++ engine_id e ++ "] Try to close extension context".

Definition can_be_closed_line (e : ten_engine_t) : string :=
  "[" ++ engine_id e ++ "] Extension context can be closed now".

(** The invariant of the close sequence between [close] and the terminal
    step: every thread still registered has its notification outstanding. *)
Definition closing (e : ten_engine_t) : Prop :=
  signature (extension_context e) = true
  /\ NoDup (extension_threads (extension_context e))
  /\ extension_threads_cnt_of_closed (extension_context e)
     + List.length (extension_threads (extension_context e))
     = extension_threads_total_cnt (extension_context e).

Definition could_not_close_line (e : ten_engine_t) : string :=
  "[" ++ engine_id e ++ "] Could not close alive extension context".

(** The handles of the registered threads are pairwise distinct and all
    older than the next handle [ten_extension_thread_create] gives out. *)
Definition handles_fresh (e : ten_engine_t) : Prop :=
  NoDup (extension_threads (extension_context e))
  /\ forall t, In t (extension_threads (extension_context e)) ->
               thread_id t < threads_created e.

(** *** Example graphs *)

Definition this_app : ten_app_t := mk_app "msgpack://127.0.0.1:8001/" "/app".

Definition remote_group : ten_extension_group_info_t :=
  mk_extension_group_info "default_extension_group" "remote_group"
    (mk_loc "msgpack://127.0.0.1:8002/" "graph_1" EmptyString).

Definition remote_extension : ten_extension_info_t :=
  mk_extension_info "remote_addon" "remote_group"
    (mk_loc "msgpack://127.0.0.1:8002/" "graph_1" "remote_extension").

Definition start_graph_dest : ten_loc_t :=
  mk_loc "msgpack://127.0.0.1:8001/" "graph_1" EmptyString.

(** A graph whose only group lives in another app. *)
Definition remote_only_engine : ten_engine_t :=
  engine_with_fresh_context this_app "graph_1" EmptyString
    (mk_cmd TEN_MSG_TYPE_CMD_START_GRAPH [start_graph_dest]
       [remote_extension] [remote_group]) 0.

(** The empty graph: StartGraph with no nodes. *)
Definition empty_graph_engine : ten_engine_t :=
  engine_with_fresh_context this_app "graph_1" EmptyString
    (mk_cmd TEN_MSG_TYPE_CMD_START_GRAPH [start_graph_dest] [] []) 0.

Definition local_group (addon_name instance_name : string)
  : ten_extension_group_info_t :=
  mk_extension_group_info addon_name instance_name
    (mk_loc "msgpack://127.0.0.1:8001/" "graph_1" EmptyString).

Definition local_extension (addon_name instance_name group : string)
  : ten_extension_info_t :=
  mk_extension_info addon_name group
    (mk_loc "msgpack://127.0.0.1:8001/" "graph_1" instance_name).

(** Two groups in this app, one of them the built-in one, and one group
    elsewhere. *)
Definition two_groups_cmd : ten_cmd_start_graph_t :=
  mk_cmd TEN_MSG_TYPE_CMD_START_GRAPH [start_graph_dest]
    [local_extension "addon_1" "ext_1" "group_a";
     local_extension "addon_2" "ext_2" "group_b";
     remote_extension;
     local_extension "addon_3" "ext_3" "group_a"]
    [local_group "default_extension_group" "group_a";
     remote_group;
     local_group "custom_group_addon" "group_b"].

Definition two_groups_engine : ten_engine_t :=
  engine_with_fresh_context this_app "graph_1" EmptyString two_groups_cmd 0.

(** A context that was created and never given a thread; the allocator
    left 7 where [extension_threads_total_cnt] lives. *)
Definition no_thread_engine : ten_engine_t :=
  engine_with_fresh_context this_app "graph_1" EmptyString
    (mk_cmd TEN_MSG_TYPE_CMD_START_GRAPH [start_graph_dest] [] []) 7.

(** A running context with three threads and an on_closed callback. *)
Definition three_threads : list ten_extension_thread_t :=
  [mk_thread 0 "group_a"; mk_thread 1 "group_b"; mk_thread 2 "group_c"].

Definition three_threads_engine : ten_engine_t :=
  mk_engine this_app "graph_1" EmptyString
    (mk_cmd TEN_MSG_TYPE_CMD_START_GRAPH [start_graph_dest] [] [])
    (mk_context true (Some 1) [] [] three_threads 3 0 7) [] 3.

(** The same graph once it runs: the context owns both lists. *)
Definition running_engine : ten_engine_t :=
  mk_engine this_app "graph_1" EmptyString
    (mk_cmd TEN_MSG_TYPE_CMD_START_GRAPH [start_graph_dest] [] [])
    (mk_context true None (cmd_extension_groups_info two_groups_cmd)
       (cmd_extensions_info two_groups_cmd)
       [mk_thread 0 "group_a"; mk_thread 1 "group_b"] 0 0 0) [] 2.

(** A graph with a group whose addon does not exist, between two that do. *)
Definition missing_addon_engine : ten_engine_t :=
  engine_with_fresh_context this_app "graph_1" EmptyString
    (mk_cmd TEN_MSG_TYPE_CMD_START_GRAPH [start_graph_dest] []
       [local_group "default_extension_group" "group_a"; remote_group;
        local_group "does_not_exist" "group_b";
        local_group "default_extension_group" "group_c"]) 0.

Definition all_but_does_not_exist (addon_name : string) : bool :=
  negb (String.eqb addon_name "does_not_exist").

(** *** The lookup as the specification words it *)

(** The claim's reading of the lookup: a record answers a query when its
    location string-equals every query field that is not NULL. *)
Definition field_agrees (c_str : option string) (s : string) : bool :=
  match c_str with
  | Some c => String.eqb s c
  | None => true
  end.

Definition answers_query (c_app_uri c_graph_id c_extension_name : option string)
  (i : ten_extension_info_t) : bool :=
  field_agrees c_app_uri (app_uri (ei_loc i))
  && field_agrees c_graph_id (graph_id (ei_loc i))
  && field_agrees c_extension_name (extension_name (ei_loc i)).

End ExtensionContext.

(** ** env_tester_log.c: the Python binding of ten_env_tester.log *)

Module PyTesterLog.

Import ExtensionContext.
Local Open Scope Z_scope.

(** The Python objects the binding can be handed. *)
Inductive PyObject : Type :=
| Py_None
| PyLong (v : Z)
| PyUnicode (s : string)
| PyBytes (b : list Byte.byte)
| PyOther.

(** What the binding gives back to the interpreter: None, the error object
    made by [ten_py_error_wrap], or NULL with a ValueError raised by
    [ten_py_raise_py_value_error_exception]. *)
Inductive py_result : Type :=
| Py_RETURN_NONE
| Wrapped_error (err : ten_error_t)
| Raised_value_error (message : string).

Record ten_env_tester_notify_log_ctx_t : Type := mk_log_ctx {
  ctx_level : Z;
  func_name : string;
  file_name : string;
  line_no : Z;
  msg : string;
  ctx_category : string;
  completed : bool;
  fields_buf : option (list Byte.byte);
  fields_buf_size : nat }.

(** The proxy to the tester: [ten_env_tester_proxy_notify] is outside the
    sources; it either takes the task or fails with an error of its own. *)
Record ten_env_tester_proxy_t : Type := mk_proxy {
  notify_failure : option ten_error_t }.

(** The Python tester object and what the binding did to the outside: the
    contexts it allocated and still holds, and the tasks it posted to the
    tester through the proxy. *)
Record ten_py_ten_env_tester_t : Type := mk_py_tester {
  c_ten_env_tester_proxy : option ten_env_tester_proxy_t;
  live_ctxs : list ten_env_tester_notify_log_ctx_t;
  posted : list ten_env_tester_notify_log_ctx_t }.

Definition c_str_or_empty (s : option string) : string :=
  match s with Some s => s | None => EmptyString end.

Definition ten_env_tester_notify_log_ctx_create (level : Z)
  (func_name file_name : option string) (line_no : Z) (msg : option string)
  (category : option string) (sync : bool)
  (fields_buf : option (list Byte.byte)) (fields_buf_size : nat)
  : ten_env_tester_notify_log_ctx_t :=
  {| ctx_level := level;
     completed := sync;
     func_name := c_str_or_empty func_name;
     file_name := c_str_or_empty file_name;
     line_no := line_no;
     msg := c_str_or_empty msg;
     ctx_category := c_str_or_empty category;
     fields_buf :=
       match fields_buf with
       | Some b => if (0 <? fields_buf_size)%nat then Some b else None
       | None => None
       end;
     fields_buf_size :=
       match fields_buf with
       | Some _ => if (0 <? fields_buf_size)%nat then fields_buf_size else 0%nat
       | None => 0%nat
       end |}.

(** The format units of PyArg_ParseTuple that the binding uses, as the
    CPython manual describes them: i is an int that fits a C int, z a str
    or None, s a str, b an int that fits an unsigned char, O any object;
    a str with an embedded null character is refused. *)
Definition has_null (s : string) : bool :=
  existsb (Ascii.eqb Ascii.zero) (list_ascii_of_string s).

Definition format_i (o : PyObject) : option Z :=
  match o with
  | PyLong v => if (- 2 ^ 31 <=? v) && (v <? 2 ^ 31) then Some v else None
  | _ => None
  end.

Definition format_z (o : PyObject) : option (option string) :=
  match o with
  | Py_None => Some None
  | PyUnicode s => if has_null s then None else Some (Some s)
  | _ => None
  end.

Definition format_s (o : PyObject) : option string :=
  match o with
  | PyUnicode s => if has_null s then None else Some s
  | _ => None
  end.

Definition format_b (o : PyObject) : option bool :=
  match o with
  | PyLong v => if (0 <=? v) && (v <? 256) then Some (negb (v =? 0)) else None
  | _ => None
  end.

Record log_args : Type := mk_log_args {
  arg_level : Z;
  arg_func_name : option string;
  arg_file_name : option string;
  arg_line_no : Z;
  arg_category : option string;
  arg_msg : string;
  arg_sync : bool;
  arg_fields_buf_obj : PyObject }.

(** [PyArg_ParseTuple(args, "izzizsbO", ...)] on a tuple of eight. *)
Definition PyArg_ParseTuple_izzizsbO (args : list PyObject) : option log_args :=
  match args with
  | [a1; a2; a3; a4; a5; a6; a7; a8] =>
      match format_i a1, format_z a2, format_z a3, format_i a4,
            format_z a5, format_s a6, format_b a7 with
      | Some level, Some func_name, Some file_name, Some line_no,
        Some category, Some msg, Some sync =>
          Some (mk_log_args level func_name file_name line_no category msg
                  sync a8)
      | _, _, _, _, _, _, _ => None
      end
  | _ => None
  end.

(** [line_no] is declared [size_t line_no = 0] and handed to the unit i,
    which stores a C int at its address: on the 64-bit little-endian
    targets of the binding the low 32 bits take the int and the high 32
    bits keep their 0, so the variable reads the int modulo 2^32. *)
Definition int_stored_in_size_t (v : Z) : Z := v mod 2 ^ 32.

Definition ten_is_closed_error : ten_error_t :=
  {| error_code := TEN_ERROR_CODE_TEN_IS_CLOSED;
     error_message := "ten_env_tester.log() failed because ten is closed." |}.

Definition ten_py_ten_env_tester_log (self : ten_py_ten_env_tester_t)
  (args : list PyObject) : py_result * ten_py_ten_env_tester_t :=
  if negb (List.length args =? 8)%nat then
    (Raised_value_error "Invalid argument count when ten_env_tester.log.", self)
  else
    match PyArg_ParseTuple_izzizsbO args with
    | None =>
        (Raised_value_error "Failed to parse argument when ten_env_tester.log.",
         self)
    | Some a =>
        match c_ten_env_tester_proxy self with
        | None => (Wrapped_error ten_is_closed_error, self)
        | Some proxy =>
            let fields :=
              match arg_fields_buf_obj a with
              | Py_None => Some (None, 0%nat)
              | PyBytes b => Some (Some b, List.length b)
              | _ => None
              end in
            match fields with
            | None =>
                (Raised_value_error "fields_buf must be bytes or None.", self)
            | Some (fields_buf, fields_buf_size) =>
                let ctx :=
                  ten_env_tester_notify_log_ctx_create (arg_level a)
                    (arg_func_name a) (arg_file_name a)
                    (int_stored_in_size_t (arg_line_no a))
                    (Some (arg_msg a)) (arg_category a) (arg_sync a)
                    fields_buf fields_buf_size in
                match notify_failure proxy with
                | Some err =>
                    (* the context is destroyed again *)
                    (Wrapped_error err, self)
                | None =>
                    if arg_sync a then
                      (* the caller waits for the tester to run the task and
                         destroys the context itself *)
                      (Py_RETURN_NONE,
                       mk_py_tester (c_ten_env_tester_proxy self)
                         (live_ctxs self) (posted self ++ [ctx]))
                    else
                      (* the task destroys the context when it has run *)
                      (Py_RETURN_NONE,
                       mk_py_tester (c_ten_env_tester_proxy self)
                         (live_ctxs self ++ [ctx]) (posted self ++ [ctx]))
                end
            end
        end
    end.

(** [ten_env_tester_log] as the posted task calls it. *)
Record ten_env_tester_log_call : Type := mk_tester_log_call {
  call_level : Z;
  call_func_name : string;
  call_file_name : string;
  call_line_no : Z;
  call_msg : string;
  call_category : string;
  call_fields_buf : option (list Byte.byte);
  call_fields_buf_size : nat }.

(** [ten_py_ten_env_tester_log_proxy_notify], the task that runs on the
    tester: it logs from the context, then either wakes the waiting caller
    (a sync call, [completed] is set) or destroys the context itself.  The
    second component says whether the task destroyed the context. *)
Definition ten_py_ten_env_tester_log_proxy_notify
  (ctx : ten_env_tester_notify_log_ctx_t) : ten_env_tester_log_call * bool :=
  (mk_tester_log_call (ctx_level ctx) (func_name ctx) (file_name ctx)
     (line_no ctx) (msg ctx) (ctx_category ctx) (fields_buf ctx)
     (fields_buf_size ctx),
   negb (completed ctx)).

(** The fields argument as the binding accepts it. *)
Definition fields_of (o : PyObject) : option (option (list Byte.byte)) :=
  match o with
  | Py_None => Some None
  | PyBytes b => Some (match b with [] => None | _ :: _ => Some b end)
  | _ => None
  end.

(** A tester whose proxy has been torn down, and one that is still up. *)
Definition closed_tester : ten_py_ten_env_tester_t := mk_py_tester None [] [].

Definition open_tester : ten_py_ten_env_tester_t :=
  mk_py_tester (Some (mk_proxy None)) [] [].

Definition well_formed_args : list PyObject :=
  [PyLong 3; PyUnicode "on_start"; PyUnicode "test.py"; PyLong 12; Py_None;
   PyUnicode "hello"; PyLong 0; Py_None].

(** The same call from a frame whose line number is given as -1. *)
Definition negative_line_args : list PyObject :=
  [PyLong 3; PyUnicode "on_start"; PyUnicode "test.py"; PyLong (-1); Py_None;
   PyUnicode "hello"; PyLong 0; Py_None].

End PyTesterLog.

(** ** The long_running app: extension_1 and extension_2 *)

Module LongRunning.

Inductive json : Type :=
| J_string (s : string)
| J_number (literal : string)
| J_bool (b : bool).

(** A destination as the C++ binding builds it from a braced list: the
    fields that are not given stay unset. *)
Record loc_t : Type := mk_loc_t {
  app_uri : option string;
  graph_id : option string;
  extension_name : option string }.

Inductive cmd_kind : Type := Custom_cmd | Close_app_cmd.

Record cmd_t : Type := mk_cmd_t {
  kind : cmd_kind;
  cmd_name : string;
  property : list (string * json);
  dests : list loc_t }.

Definition fields_from_1 : list (string * json) :=
  [("string_field", J_string "hello world");
   ("int_field", J_number "42");
   ("float_field", J_number "3.14159");
   ("bool_field", J_bool true);
   ("negative_int", J_number "-100");
   ("large_number", J_number "9223372036854775807")].

Definition fields_from_2 : list (string * json) :=
  [("string_field", J_string "test_cmd_from_2 hello world");
   ("int_field", J_number "43");
   ("float_field", J_number "3.1415926");
   ("bool_field", J_bool false);
   ("negative_int", J_number "-101");
   ("large_number", J_number "9223372036854775807")].

Definition test_cmd_from_1 : cmd_t :=
  mk_cmd_t Custom_cmd "test_cmd_from_1" fields_from_1 [].

Definition test_cmd_from_2 : cmd_t :=
  mk_cmd_t Custom_cmd "test_cmd_from_2" fields_from_2 [].

(** [close_app_cmd_t::create()] followed by [set_dests] with one location
    that names only the empty app uri. *)
Definition close_app : cmd_t :=
  mk_cmd_t Close_app_cmd "close_app" []
    [mk_loc_t (Some EmptyString) None None].

Inductive TEN_STATUS_CODE : Type := TEN_STATUS_CODE_OK | TEN_STATUS_CODE_ERROR.

(** What an extension asks of its ten_env inside a callback. *)
Inductive ten_env_call : Type :=
| on_start_done
| on_stop_done
| on_deinit_done
| send_cmd (c : cmd_t)
| return_result (status : TEN_STATUS_CODE) (of_cmd : string)
| log_info (text : string) (fields : list (string * json))
| ten_random_sleep_range_ms (lo hi : nat).

(** extension_1/src/main.cc *)

Definition extension_1_on_start : list ten_env_call :=
  [on_start_done; send_cmd test_cmd_from_1].

Definition extension_1_on_cmd (cnt : nat) (cmd : cmd_t)
  : nat * list ten_env_call :=
  if String.eqb (cmd_name cmd) "test_cmd_from_2" then
    let first :=
      [log_info "test_cmd_from_2 received with detailed fields" (property cmd);
       return_result TEN_STATUS_CODE_OK (cmd_name cmd);
       ten_random_sleep_range_ms 1000 2000] in
    if (cnt <? 100)%nat then
      (S cnt,
       first ++ [log_info "test_cmd_from_1 sent" []; send_cmd test_cmd_from_1])
    else
      (cnt, first ++ [send_cmd close_app])
  else (cnt, []).

(** extension_2/src/main.cc *)

Definition extension_2_on_cmd (cmd : cmd_t) : list ten_env_call :=
  if String.eqb (cmd_name cmd) "test_cmd_from_1" then
    [log_info "test_cmd_from_1 received with detailed fields" (property cmd);
     return_result TEN_STATUS_CODE_OK (cmd_name cmd);
     ten_random_sleep_range_ms 1000 2000;
     log_info "test_cmd_from_2 sent" [];
     send_cmd test_cmd_from_2]
  else [].

(** The graph around the two extensions. *)

Inductive endpoint : Type := extension_1 | extension_2 | the_app.

Inductive happening : Type :=
| Received (by_whom : endpoint) (c : cmd_t)
| Called (by_whom : endpoint) (call : ten_env_call)
| Exited (status : Z).

Record graph_state : Type := mk_graph_state {
  cnt : nat;
  in_flight : list (endpoint * cmd_t);
  history : list happening;
  exit_status : option Z }.

(** Modelled from the spec: the routing of the long_running graph, whose
    property.json is not among the sources.  Scenario 3 connects ext1 and
    ext2 in both directions, and section 4.2 makes a destination with an
    empty app uri local: the CloseApp command goes to this app. *)
Definition is_empty_uri (l : loc_t) : bool :=
  match app_uri l with
  | Some EmptyString => true
  | _ => false
  end.

Definition route (from : endpoint) (c : cmd_t) : list (endpoint * cmd_t) :=
  match kind c with
  | Close_app_cmd =>
      map (fun _ => (the_app, c)) (filter is_empty_uri (dests c))
  | Custom_cmd =>
      match from with
      | extension_1 => [(extension_2, c)]
      | extension_2 => [(extension_1, c)]
      | the_app => []
      end
  end.

Fixpoint sent_by (from : endpoint) (calls : list ten_env_call)
  : list (endpoint * cmd_t) :=
  match calls with
  | [] => []
  | send_cmd c :: rest => route from c ++ sent_by from rest
  | _ :: rest => sent_by from rest
  end.

(** Modelled from the spec: what CloseApp does, the app and the extension
    threads not being among the sources.  The close of an extension thread
    walks its extensions through on_stop, on_stop_done, on_deinit and
    on_deinit_done (neither extension overrides on_stop or on_deinit, so
    each phase is acknowledged at once), and the app binary exits with 0 on
    a clean shutdown. *)
Definition close_of (x : endpoint) : list happening :=
  [Called x on_stop_done; Called x on_deinit_done].

Definition shutdown : list happening :=
  close_of extension_2 ++ close_of extension_1 ++ [Exited 0].

(** The delivery of the oldest command in flight. *)
Definition deliver (s : graph_state) : graph_state :=
  match exit_status s, in_flight s with
  | Some _, _ => s
  | None, [] => s
  | None, (extension_1, c) :: rest =>
      let (cnt', calls) := extension_1_on_cmd (cnt s) c in
      mk_graph_state cnt' (rest ++ sent_by extension_1 calls)
        (history s ++ Received extension_1 c :: map (Called extension_1) calls)
        None
  | None, (extension_2, c) :: rest =>
      let calls := extension_2_on_cmd c in
      mk_graph_state (cnt s) (rest ++ sent_by extension_2 calls)
        (history s ++ Received extension_2 c :: map (Called extension_2) calls)
        None
  | None, (the_app, c) :: rest =>
      mk_graph_state (cnt s) rest
        (history s ++ Received the_app c :: shutdown) (Some 0%Z)
  end.

Fixpoint deliveries (n : nat) (s : graph_state) : graph_state :=
  match n with
  | O => s
  | S n' => deliveries n' (deliver s)
  end.

(** The graph once both extensions have started: extension_2 keeps the
    default on_start, extension_1 has sent its first command. *)
Definition started : graph_state :=
  mk_graph_state 0 (sent_by extension_1 extension_1_on_start)
    (Called extension_2 on_start_done
     :: map (Called extension_1) extension_1_on_start)
    None.

Definition is_close_app_sent (h : happening) : bool :=
  match h with
  | Called _ (send_cmd c) =>
      match kind c with Close_app_cmd => true | Custom_cmd => false end
  | _ => false
  end.

Definition is_received_from_2 (h : happening) : bool :=
  match h with
  | Received extension_1 c => String.eqb (cmd_name c) "test_cmd_from_2"
  | _ => false
  end.

Definition is_sent_from_1 (h : happening) : bool :=
  match h with
  | Called extension_1 (send_cmd c) => String.eqb (cmd_name c) "test_cmd_from_1"
  | _ => false
  end.

(** One round trip as the history shows it: extension_2 receives
    test_cmd_from_1, replies OK and sends test_cmd_from_2; extension_1
    receives it, replies OK and sends test_cmd_from_1 again. *)
Definition round_trip : list happening :=
  Received extension_2 test_cmd_from_1
  :: map (Called extension_2) (extension_2_on_cmd test_cmd_from_1)
  ++ Received extension_1 test_cmd_from_2
     :: map (Called extension_1) (snd (extension_1_on_cmd 0 test_cmd_from_2)).

(** The round trip that ends with CloseApp instead. *)
Definition last_round_trip : list happening :=
  Received extension_2 test_cmd_from_1
  :: map (Called extension_2) (extension_2_on_cmd test_cmd_from_1)
  ++ Received extension_1 test_cmd_from_2
     :: map (Called extension_1) (snd (extension_1_on_cmd 100 test_cmd_from_2)).

Fixpoint round_trips (k : nat) : list happening :=
  match k with
  | O => []
  | S k' => round_trips k' ++ round_trip
  end.

(** extension_1 fed with any sequence of commands, one on_cmd after the
    other. *)
Fixpoint extension_1_receives (cnt : nat) (cmds : list cmd_t)
  : nat * list ten_env_call :=
  match cmds with
  | [] => (cnt, [])
  | c :: rest =>
      let (cnt', calls) := extension_1_on_cmd cnt c in
      let (cnt'', calls') := extension_1_receives cnt' rest in
      (cnt'', calls ++ calls')
  end.

Definition is_from_2 (c : cmd_t) : bool :=
  String.eqb (cmd_name c) "test_cmd_from_2".

Definition is_ok_result (call : ten_env_call) : bool :=
  match call with
  | return_result TEN_STATUS_CODE_OK _ => true
  | _ => false
  end.

Definition is_resend (call : ten_env_call) : bool :=
  match call with
  | send_cmd c =>
      match kind c with
      | Custom_cmd => String.eqb (cmd_name c) "test_cmd_from_1"
      | Close_app_cmd => false
      end
  | _ => false
  end.

Definition is_close_app (call : ten_env_call) : bool :=
  match call with
  | send_cmd c =>
      match kind c with Close_app_cmd => true | Custom_cmd => false end
  | _ => false
  end.

Definition is_send (call : ten_env_call) : bool :=
  match call with send_cmd _ => true | _ => false end.

End LongRunning.

(** ** board_pins_config_respeaker.c: the pins of the ReSpeaker XVF3800 *)

Module BoardPins.

Local Open Scope Z_scope.

Inductive esp_err_t : Type := ESP_OK | ESP_FAIL.

(** A line of the ESP log: level, format and the integer it is given. *)
Inductive esp_log : Type :=
| ESP_LOGE (format : string) (argument : option Z)
| ESP_LOGW (format : string).

(** The pin fields the getters write; the fields they never touch are
    kept together in [i2c_other_fields]. *)
Record i2c_config_t : Type := mk_i2c_config {
  sda_io_num : Z;
  scl_io_num : Z;
  i2c_other_fields : list Z }.

Record board_i2s_pin_t : Type := mk_i2s_pins {
  bck_io_num : Z;
  ws_io_num : Z;
  data_out_num : Z;
  data_in_num : Z;
  mck_io_num : Z }.

Record spi_bus_config_t : Type := mk_spi_bus {
  mosi_io_num : Z;
  miso_io_num : Z;
  sclk_io_num : Z;
  quadwp_io_num : Z;
  quadhd_io_num : Z;
  spi_other_fields : list Z }.

Record spi_device_interface_config_t : Type := mk_spi_device {
  spics_io_num : Z;
  device_other_fields : list Z }.

Definition I2C_NUM_0 : Z := 0.
Definition I2C_NUM_1 : Z := 1.
Definition GPIO_NUM_5 : Z := 5.
Definition GPIO_NUM_6 : Z := 6.
Definition GPIO_NUM_7 : Z := 7.
Definition GPIO_NUM_8 : Z := 8.
Definition GPIO_NUM_43 : Z := 43.
Definition GPIO_NUM_44 : Z := 44.

(** [AUDIO_NULL_CHECK(TAG, ptr, return ESP_FAIL)], a macro of the audio
    framework, logs an error line and returns on a NULL pointer; the line
    is kept as its message alone.  A pointer argument is an option, [None]
    being NULL. *)
Definition null_pointer_line : esp_log := ESP_LOGE "Got NULL Pointer" None.

Definition get_i2c_pins (port : Z) (i2c_config : option i2c_config_t)
  : esp_err_t * option i2c_config_t * list esp_log :=
  match i2c_config with
  | None => (ESP_FAIL, None, [null_pointer_line])
  | Some c =>
      if (port =? I2C_NUM_0) || (port =? I2C_NUM_1) then
        (ESP_OK,
         Some (mk_i2c_config GPIO_NUM_5 GPIO_NUM_6 (i2c_other_fields c)), [])
      else
        (ESP_FAIL, Some (mk_i2c_config (-1) (-1) (i2c_other_fields c)),
         [ESP_LOGE "i2c port %d is not supported" (Some port)])
  end.

Definition get_i2s_pins (port : Z) (i2s_config : option board_i2s_pin_t)
  : esp_err_t * option board_i2s_pin_t * list esp_log :=
  match i2s_config with
  | None => (ESP_FAIL, None, [null_pointer_line])
  | Some _ =>
      if port =? 0 then
        (ESP_OK,
         Some {| bck_io_num := GPIO_NUM_8;
                 ws_io_num := GPIO_NUM_7;
                 data_out_num := GPIO_NUM_44;
                 data_in_num := GPIO_NUM_43;
                 mck_io_num := -1 |}, [])
      else if port =? 1 then
        (ESP_OK,
         Some {| bck_io_num := -1;
                 ws_io_num := -1;
                 data_out_num := -1;
                 data_in_num := -1;
                 mck_io_num := -1 |}, [])
      else
        (* memset(i2s_config, -1, sizeof(board_i2s_pin_t)): every byte is
           0xff, so every int of the structure reads -1 *)
        (ESP_FAIL, Some (mk_i2s_pins (-1) (-1) (-1) (-1) (-1)),
         [ESP_LOGE "i2s port %d is not supported" (Some port)])
  end.

Definition get_spi_pins (spi_config : option spi_bus_config_t)
  (spi_device_interface_config : option spi_device_interface_config_t)
  : esp_err_t * option spi_bus_config_t
    * option spi_device_interface_config_t * list esp_log :=
  match spi_config with
  | None => (ESP_FAIL, None, spi_device_interface_config, [null_pointer_line])
  | Some c =>
      match spi_device_interface_config with
      | None => (ESP_FAIL, Some c, None, [null_pointer_line])
      | Some d =>
          (ESP_OK,
           Some (mk_spi_bus (-1) (-1) (-1) (-1) (-1) (spi_other_fields c)),
           Some (mk_spi_device (-1) (device_other_fields d)),
           [ESP_LOGW "SPI interface is not supported"])
      end
  end.

(** The pins a getter handed out: the fields that hold a GPIO number. *)
Definition assigned (pins : list Z) : list Z := filter (fun p => 0 <=? p) pins.

Definition i2c_pins (c : i2c_config_t) : list Z :=
  assigned [sda_io_num c; scl_io_num c].

Definition i2s_pins (c : board_i2s_pin_t) : list Z :=
  assigned [bck_io_num c; ws_io_num c; data_out_num c; data_in_num c;
            mck_io_num c].

Definition spi_pins (c : spi_bus_config_t) (d : spi_device_interface_config_t)
  : list Z :=
  assigned [mosi_io_num c; miso_io_num c; sclk_io_num c; quadwp_io_num c;
            quadhd_io_num c; spics_io_num d].

Definition stale_i2c : i2c_config_t := mk_i2c_config 17 18 [1; 400000].

Definition stale_i2s : board_i2s_pin_t := mk_i2s_pins 9 45 8 10 16.


End BoardPins.

(** * Theorems *)

(** ** Generic facts about runs *)

Lemma bind_done {S A B : Type} (m : run S A) (k : A -> run S B) s a s' :
  m s = Done (a, s') -> bind m k s = k a s'.
Proof. intros H. unfold bind. rewrite H. reflexivity. Qed.

Lemma TEN_ASSERT_true {S : Type} (fmt : string) (s : S) :
  TEN_ASSERT true fmt s = Done (tt, s).
Proof. reflexivity. Qed.

Lemma find_first {A : Type} (p : A -> bool) (l : list A) (r : A) :
  find p l = Some r ->
  exists before after,
    l = before ++ r :: after /\ p r = true
    /\ forall x, In x before -> p x = false.
Proof.
  induction l as [|x rest IH]; simpl; [discriminate|].
  destruct (p x) eqn:Hx.
  - intros [= <-]. exists [], rest. repeat split; auto. intros ? [].
  - intros H. destruct (IH H) as (before & after & -> & Hr & Hb).
    exists (x :: before), after. repeat split; auto.
    intros y [<-|Hy]; auto.
Qed.

Lemma find_nothing {A : Type} (p : A -> bool) (l : list A) :
  (forall x, In x l -> p x = false) -> find p l = None.
Proof.
  induction l as [|x rest IH]; simpl; intros H; [reflexivity|].
  rewrite (H x (or_introl eq_refl)). apply IH. intros y Hy. apply H. now right.
Qed.

(** ** extension_context.c *)

Module ExtensionContextTheory.

Import ExtensionContext.
Local Open Scope run_scope.

(** *** Lookup by name *)

Lemma given_and_differs_agrees c s :
  given_and_differs c s = negb (field_agrees c s).
Proof. destruct c; reflexivity. Qed.

Lemma find_extension_info_is_find l a g n :
  find_extension_info l a g n = find (answers_query a g n) l.
Proof.
  induction l as [|i rest IH]; simpl; [reflexivity|].
  unfold answers_query. rewrite !given_and_differs_agrees, IH.
  destruct (field_agrees a _); simpl; [|reflexivity].
  destruct (field_agrees g _); simpl; [|reflexivity].
  destruct (field_agrees n _); reflexivity.
Qed.

Lemma check_self_live e check_thread :
  signature (extension_context e) = true ->
  check_self check_thread e = Done (tt, e).
Proof.
  intros H. unfold check_self, get, bind,
    ten_extension_context_check_integrity. rewrite H. reflexivity.
Qed.

(** C10.  On a live extension context, and for a query whose app uri and
    extension name are given (the function asserts both) while the graph id
    may be NULL, ten_extension_context_get_extension_info_by_name returns
    the first record of extensions_info_from_graph whose location equals
    every given field, and NULL when there is none; the engine is left as it
    was.  ten_extension_context_get_extension_group_name then returns that
    record's group name, and NULL, not a failure, when no record answers. *)
Theorem get_extension_info_by_name_first_match
  (e : ten_engine_t) (the_app_uri : string) (c_graph_id : option string)
  (the_extension_name : string) (check_thread : bool) :
  signature (extension_context e) = true ->
  let l := extensions_info_from_graph (extension_context e) in
  let q := answers_query (Some the_app_uri) c_graph_id (Some the_extension_name) in
  ten_extension_context_get_extension_info_by_name
    (Some the_app_uri) c_graph_id (Some the_extension_name) check_thread e
  = Done (find q l, e)
  /\ (forall r, find q l = Some r ->
        exists before after,
          l = before ++ r :: after /\ q r = true
          /\ forall x, In x before -> q x = false)
  /\ ((forall x, In x l -> q x = false) -> find q l = None)
  /\ ten_extension_context_get_extension_group_name
       (Some the_app_uri) c_graph_id (Some the_extension_name) check_thread e
     = Done (option_map extension_group_name (find q l), e).
Proof.
  intros Hlive l q.
  assert (Hby : ten_extension_context_get_extension_info_by_name
                  (Some the_app_uri) c_graph_id (Some the_extension_name)
                  check_thread e = Done (find q l, e)).
  { unfold ten_extension_context_get_extension_info_by_name.
    rewrite (bind_done _ _ _ _ _ (check_self_live e check_thread Hlive)).
    simpl. unfold bind at 1. rewrite TEN_ASSERT_true.
    unfold bind, get, ret. now rewrite find_extension_info_is_find. }
  split; [exact Hby|]. split; [apply find_first|].
  split; [apply find_nothing|].
  unfold ten_extension_context_get_extension_group_name.
  rewrite (bind_done _ _ _ _ _ (check_self_live e check_thread Hlive)).
  rewrite (bind_done _ _ _ _ _ Hby).
  destruct (find q l); reflexivity.
Qed.

Lemma get_extension_info_by_name_witness :
  ten_extension_context_get_extension_info_by_name
    (Some "msgpack://127.0.0.1:8001/") None (Some "ext_3") false running_engine
  = Done (Some (local_extension "addon_3" "ext_3" "group_a"), running_engine)
  /\ ten_extension_context_get_extension_group_name
       (Some "msgpack://127.0.0.1:8001/") None (Some "ext_3") false
       running_engine
     = Done (Some "group_a", running_engine).
Proof.
  destruct (get_extension_info_by_name_first_match running_engine
              "msgpack://127.0.0.1:8001/" None "ext_3" false eq_refl)
    as (Hinfo & _ & _ & Hname).
  split; [exact Hinfo|exact Hname].
Defined.

(** *** Effects of the loops *)

Lemma with_effects_nil e : with_effects [] e = e.
Proof. destruct e. unfold with_effects. simpl. now rewrite app_nil_r. Qed.

Lemma with_effects_cons x xs e :
  with_effects xs (with_effect x e) = with_effects (x :: xs) e.
Proof. unfold with_effects, with_effect. simpl. now rewrite <- app_assoc. Qed.

Lemma start_each_run l e :
  start_each l e = Done (tt, with_effects (map Extension_thread_start l) e).
Proof.
  revert e. induction l as [|t rest IH]; intros e; simpl.
  - now rewrite with_effects_nil.
  - unfold bind, emit, modify. rewrite IH. now rewrite with_effects_cons.
Qed.

Lemma close_each_run l e :
  close_each l e = Done (tt, with_effects (map Extension_thread_close l) e).
Proof.
  revert e. induction l as [|t rest IH]; intros e; simpl.
  - now rewrite with_effects_nil.
  - unfold bind, emit, modify. rewrite IH. now rewrite with_effects_cons.
Qed.

(** *** Starting the extension groups *)

Section Start.

Variable addon_found : string -> bool.

(** C1 (as amended).  When the start_graph command carries no extension
    group info at all, ten_extension_context_start_extension_group swaps the
    command's extension info list and its (empty) group info list into the
    extension context, whose own lists were empty, starts the context, that
    is every thread registered in it, and returns true with the error left
    as it was. *)
Theorem start_extension_group_empty_graph
  (e : ten_engine_t) (err : option ten_error_t) :
  signature (extension_context e) = true ->
  extensions_info_from_graph (extension_context e) = [] ->
  extension_groups_info_from_graph (extension_context e) = [] ->
  cmd_extension_groups_info (original_start_graph_cmd_of_enabling_engine e) = [] ->
  exists e',
    ten_extension_context_start_extension_group addon_found err e
    = Done ((true, err), e')
    /\ extensions_info_from_graph (extension_context e')
       = cmd_extensions_info (original_start_graph_cmd_of_enabling_engine e)
    /\ extension_groups_info_from_graph (extension_context e') = []
    /\ cmd_extensions_info (original_start_graph_cmd_of_enabling_engine e') = []
    /\ cmd_extension_groups_info (original_start_graph_cmd_of_enabling_engine e') = []
    /\ extension_threads (extension_context e')
       = extension_threads (extension_context e)
    /\ effects e'
       = effects e
         ++ map Extension_thread_start (extension_threads (extension_context e)).
Proof.
  destruct e as [a id gn [mt ds eis gis] [sg oc gl el th r c t] fx n].
  simpl. intros -> -> -> ->.
  unfold ten_extension_context_start_extension_group,
    ten_extension_context_add_extensions_info_from_graph,
    ten_extension_context_add_extension_groups_info_from_graph,
    ten_extension_context_start, check_self, bind, get, modify, ret. simpl.
  rewrite start_each_run. simpl.
  eexists. split; [reflexivity|]. simpl. repeat split; reflexivity.
Qed.

Lemma start_each_extension_group_posts l err e :
  (forall i, In i l -> is_local (app e) i = true ->
             addon_found (extension_group_addon_name i) = true) ->
  start_each_extension_group addon_found l err e
  = Done ((true, err),
          with_effects (map creation_request (filter (is_local (app e)) l)) e).
Proof.
  revert e. induction l as [|i rest IH]; intros e Hfound; simpl.
  - unfold ret. now rewrite with_effects_nil.
  - unfold bind at 1, get. fold (is_local (app e) i).
    destruct (is_local (app e) i) eqn:Hloc.
    + unfold bind at 1, ten_addon_create_extension_group.
      rewrite (Hfound i (or_introl eq_refl) Hloc).
      unfold bind at 1, emit, modify. unfold bind at 1, ret. simpl negb. cbv iota.
      rewrite IH.
      * simpl. rewrite with_effects_cons. reflexivity.
      * intros j Hj. apply Hfound. now right.
    + apply IH. intros j Hj. apply Hfound. now right.
Qed.

Lemma start_each_extension_group_stops before g after err e :
  is_local (app e) g = true ->
  addon_found (extension_group_addon_name g) = false ->
  (forall i, In i before -> is_local (app e) i = true ->
             addon_found (extension_group_addon_name i) = true) ->
  start_each_extension_group addon_found (before ++ g :: after) (Some err) e
  = Done ((false,
           Some (mk_error TEN_ERROR_CODE_GENERIC
                   (unable_to_find (extension_group_addon_name g)))),
          with_effects
            (map creation_request (filter (is_local (app e)) before)
             ++ [Log LOGE (failed_to_start_line e g)]) e).
Proof.
  intros Hloc Hmiss. revert e Hloc.
  induction before as [|i rest IH]; intros e Hloc Hfound; simpl.
  - unfold bind at 1, get. fold (is_local (app e) g). rewrite Hloc.
    unfold bind at 1, ten_addon_create_extension_group. rewrite Hmiss.
    unfold ret at 1. simpl negb. cbv iota.
    unfold bind, emit, modify, ret. simpl.
    rewrite <- (with_effects_nil (with_effect _ e)), with_effects_cons.
    reflexivity.
  - unfold bind at 1, get. fold (is_local (app e) i).
    destruct (is_local (app e) i) eqn:Hi.
    + unfold bind at 1, ten_addon_create_extension_group.
      rewrite (Hfound i (or_introl eq_refl) Hi).
      unfold bind at 1, emit, modify. unfold bind at 1, ret. simpl negb. cbv iota.
      rewrite IH.
      * simpl. rewrite with_effects_cons. reflexivity.
      * exact Hloc.
      * intros j Hj. apply Hfound. now right.
    + apply IH; [exact Hloc|]. intros j Hj. apply Hfound. now right.
Qed.

Lemma start_extension_group_nonempty e err :
  signature (extension_context e) = true ->
  cmd_extension_groups_info (original_start_graph_cmd_of_enabling_engine e)
  <> [] ->
  ten_extension_context_start_extension_group addon_found err e
  = start_each_extension_group addon_found
      (cmd_extension_groups_info (original_start_graph_cmd_of_enabling_engine e))
      err e.
Proof.
  intros Hlive Hne. unfold ten_extension_context_start_extension_group.
  rewrite (bind_done _ _ _ _ _ (check_self_live e true Hlive)).
  unfold bind at 1, get. cbv zeta.
  destruct (cmd_extension_groups_info _); [now elim Hne|reflexivity].
Qed.

Lemma start_extension_group_stops_at
  (e : ten_engine_t) (err : ten_error_t)
  (before after : list ten_extension_group_info_t)
  (g : ten_extension_group_info_t) :
  signature (extension_context e) = true ->
  cmd_extension_groups_info (original_start_graph_cmd_of_enabling_engine e)
  = before ++ g :: after ->
  is_local (app e) g = true ->
  addon_found (extension_group_addon_name g) = false ->
  (forall i, In i before -> is_local (app e) i = true ->
             addon_found (extension_group_addon_name i) = true) ->
  ten_extension_context_start_extension_group addon_found (Some err) e
  = Done ((false,
           Some {| error_code := TEN_ERROR_CODE_GENERIC;
                   error_message :=
                     "Unable to find " ++ extension_group_addon_name g |}),
          with_effects
            (map creation_request (filter (is_local (app e)) before)
             ++ [Log LOGE (failed_to_start_line e g)]) e).
Proof.
  intros Hlive Hcmd Hloc Hmiss Hfound.
  unfold ten_extension_context_start_extension_group.
  rewrite (bind_done _ _ _ _ _ (check_self_live e true Hlive)).
  unfold bind at 1, get. cbv zeta. rewrite Hcmd.
  destruct (before ++ g :: after) as [|x xs] eqn:Hl.
  - now destruct before.
  - rewrite <- Hl. now apply start_each_extension_group_stops.
Qed.

Lemma first_such {A : Type} (p : A -> bool) (l : list A) (x : A) :
  In x l -> p x = true ->
  exists before y after,
    l = before ++ y :: after /\ p y = true
    /\ forall z, In z before -> p z = false.
Proof.
  intros Hin Hp. destruct (find p l) as [y|] eqn:Hfind.
  - destruct (find_first p l y Hfind) as (before & after & H).
    now exists before, y, after.
  - rewrite (find_none p l Hfind x Hin) in Hp. discriminate.
Qed.

(** C4.  Whenever the command holds an extension group info of this app
    whose addon cannot be found, ten_extension_context_start_extension_group
    stops at the first such info, g1: it has posted the creations for the
    groups of this app before g1 and posts nothing for the groups after it,
    it logs the failure, returns false, and sets the error it was given to
    the code Generic with the message Unable to find followed by the addon
    name of g1. *)
Theorem start_extension_group_missing_addon
  (e : ten_engine_t) (err : ten_error_t) (g : ten_extension_group_info_t) :
  signature (extension_context e) = true ->
  In g (cmd_extension_groups_info
          (original_start_graph_cmd_of_enabling_engine e)) ->
  is_local (app e) g = true ->
  addon_found (extension_group_addon_name g) = false ->
  exists before g1 after,
    cmd_extension_groups_info (original_start_graph_cmd_of_enabling_engine e)
    = before ++ g1 :: after
    /\ unresolved addon_found (app e) g1 = true
    /\ (forall i, In i before -> unresolved addon_found (app e) i = false)
    /\ ten_extension_context_start_extension_group addon_found (Some err) e
       = Done ((false,
                Some {| error_code := TEN_ERROR_CODE_GENERIC;
                        error_message :=
                          "Unable to find " ++ extension_group_addon_name g1 |}),
               with_effects
                 (map creation_request (filter (is_local (app e)) before)
                  ++ [Log LOGE (failed_to_start_line e g1)]) e).
Proof.
  intros Hlive Hin Hloc Hmiss.
  destruct (first_such (unresolved addon_found (app e)) _ g Hin)
    as (before & g1 & after & Hsplit & Hg1 & Hbefore).
  { unfold unresolved. unfold is_local in Hloc. now rewrite Hloc, Hmiss. }
  exists before, g1, after. split; [exact Hsplit|]. split; [exact Hg1|].
  split; [exact Hbefore|].
  unfold unresolved in Hg1. apply andb_prop in Hg1 as [Hl1 Hm1].
  apply negb_true_iff in Hm1.
  apply (start_extension_group_stops_at e err before after g1);
    try assumption.
  intros i Hi Hli. specialize (Hbefore i Hi). unfold unresolved in Hbefore.
  unfold is_local in Hli. rewrite Hli in Hbefore. simpl in Hbefore.
  now apply negb_false_iff in Hbefore.
Qed.

End Start.

Lemma start_extension_group_empty_graph_witness :
  exists e',
    ten_extension_context_start_extension_group all_but_does_not_exist None
      empty_graph_engine = Done ((true, None), e')
    /\ extensions_info_from_graph (extension_context e') = []
    /\ extension_groups_info_from_graph (extension_context e') = []
    /\ cmd_extensions_info (original_start_graph_cmd_of_enabling_engine e') = []
    /\ cmd_extension_groups_info (original_start_graph_cmd_of_enabling_engine e') = []
    /\ extension_threads (extension_context e') = []
    /\ effects e' = effects empty_graph_engine ++ [].
Proof.
  exact (start_extension_group_empty_graph all_but_does_not_exist
           empty_graph_engine None
           eq_refl eq_refl eq_refl eq_refl).
Defined.

(** C1 (as stated) fails: the only group of the graph lives in another app,
    so the part of the list that belongs to this app is empty, and
    ten_extension_context_start_extension_group returns true while leaving
    the engine exactly as it was: the lists stay in the command and the
    context has none of them. *)
Lemma start_extension_group_remote_only_not_installed :
  filter (is_local (app remote_only_engine))
    (cmd_extension_groups_info
       (original_start_graph_cmd_of_enabling_engine remote_only_engine)) = []
  /\ ten_extension_context_start_extension_group all_but_does_not_exist None
       remote_only_engine
     = Done ((true, None), remote_only_engine)
  /\ extension_groups_info_from_graph (extension_context remote_only_engine) = []
  /\ extensions_info_from_graph (extension_context remote_only_engine) = []
  /\ cmd_extension_groups_info
       (original_start_graph_cmd_of_enabling_engine remote_only_engine)
     = [remote_group]
  /\ cmd_extensions_info
       (original_start_graph_cmd_of_enabling_engine remote_only_engine)
     = [remote_extension].
Proof. repeat split. Qed.

Lemma start_extension_group_missing_addon_witness :
  exists before g1 after,
    cmd_extension_groups_info
      (original_start_graph_cmd_of_enabling_engine missing_addon_engine)
    = before ++ g1 :: after
    /\ unresolved all_but_does_not_exist (app missing_addon_engine) g1 = true
    /\ (forall i, In i before ->
          unresolved all_but_does_not_exist (app missing_addon_engine) i = false)
    /\ ten_extension_context_start_extension_group all_but_does_not_exist
         (Some (mk_error TEN_ERROR_CODE_OK EmptyString)) missing_addon_engine
       = Done ((false,
                Some {| error_code := TEN_ERROR_CODE_GENERIC;
                        error_message :=
                          "Unable to find " ++ extension_group_addon_name g1 |}),
               with_effects
                 (map creation_request
                    (filter (is_local (app missing_addon_engine)) before)
                  ++ [Log LOGE (failed_to_start_line missing_addon_engine g1)])
                 missing_addon_engine).
Proof.
  apply (start_extension_group_missing_addon all_but_does_not_exist
           missing_addon_engine (mk_error TEN_ERROR_CODE_OK EmptyString)
           (local_group "does_not_exist" "group_b")).
  - reflexivity.
  - simpl. auto.
  - reflexivity.
  - reflexivity.
Defined.

(** The run on the example graph, evaluated: group_a is posted, the remote
    group is skipped, does_not_exist stops the loop, group_c is never
    tried. *)
Example missing_addon_run :
  ten_extension_context_start_extension_group all_but_does_not_exist
    (Some (mk_error TEN_ERROR_CODE_OK EmptyString)) missing_addon_engine
  = Done ((false,
           Some {| error_code := TEN_ERROR_CODE_GENERIC;
                   error_message := "Unable to find does_not_exist" |}),
          with_effects
            [Addon_create_extension_group "default_extension_group" "group_a";
             Log LOGE
               (failed_to_start_line missing_addon_engine
                  (local_group "does_not_exist" "group_b"))]
            missing_addon_engine).
Proof. reflexivity. Qed.

(** *** The completion callback *)

Lemma callback_registers (e : ten_engine_t) (g : ten_extension_group_t) :
  signature (extension_context e) = true ->
  (String.eqb (addon_host_name g) TEN_STR_DEFAULT_EXTENSION_GROUP = true ->
   start_graph_with_one_dest (original_start_graph_cmd_of_enabling_engine e)
   = true) ->
  extension_groups_cnt_of_the_current_app (app e)
    (cmd_extension_groups_info (original_start_graph_cmd_of_enabling_engine e))
  <> S (List.length (extension_threads (extension_context e))) ->
  ten_extension_context_create_extension_group_done g e
  = Done (set_extension_thread (new_thread e g) (filled_group e g),
          registered e g).
Proof.
  destruct e as [a id gn [mt ds eis gis] [sg oc gl el th r c t] fx n].
  simpl. intros -> Hdef Hcnt.
  unfold ten_extension_context_create_extension_group_done, filled_group,
    registered, new_thread. simpl.
  unfold check_self, bind at 1, get at 1. simpl.
  unfold bind at 1, get at 1. simpl.
  destruct (String.eqb (addon_host_name g) TEN_STR_DEFAULT_EXTENSION_GROUP)
    eqn:Hd.
  - specialize (Hdef eq_refl). unfold start_graph_with_one_dest in Hdef.
    simpl in Hdef. unfold bind at 1. unfold bind at 1. rewrite Hdef.
    rewrite TEN_ASSERT_true.
    destruct ds as [|dest_loc ds']; [now rewrite andb_false_r in Hdef|].
    unfold ret at 1.
    unfold ten_extension_thread_create, bind, get, modify, ret. simpl.
    rewrite length_app. simpl. rewrite Nat.add_1_r.
    apply Nat.eqb_neq in Hcnt. rewrite Hcnt. reflexivity.
  - unfold bind at 1, ret at 1.
    unfold ten_extension_thread_create, bind, get, modify, ret. simpl.
    rewrite length_app. simpl. rewrite Nat.add_1_r.
    apply Nat.eqb_neq in Hcnt. rewrite Hcnt. reflexivity.
Qed.

Lemma callback_completes (e : ten_engine_t) (g : ten_extension_group_t)
  (info : ten_extension_group_info_t) :
  signature (extension_context e) = true ->
  extensions_info_from_graph (extension_context e) = [] ->
  extension_groups_info_from_graph (extension_context e) = [] ->
  (String.eqb (addon_host_name g) TEN_STR_DEFAULT_EXTENSION_GROUP = true ->
   start_graph_with_one_dest (original_start_graph_cmd_of_enabling_engine e)
   = true) ->
  extension_groups_cnt_of_the_current_app (app e)
    (cmd_extension_groups_info (original_start_graph_cmd_of_enabling_engine e))
  = S (List.length (extension_threads (extension_context e))) ->
  find_extension_group_info
    (cmd_extension_groups_info (original_start_graph_cmd_of_enabling_engine e))
    (uri (app e)) (name g) = Some info ->
  ten_extension_context_create_extension_group_done g e
  = Done (set_extension_group_info (Some info)
            (set_extension_thread (new_thread e g) (filled_group e g)),
          with_effects
            (Log LOGM (graph_resources_line e)
             :: map Extension_thread_start
                  (extension_threads (extension_context e) ++ [new_thread e g]))
            (installed (registered e g))).
Proof.
  destruct e as [a id gn [mt ds eis gis] [sg oc gl el th r c t] fx n].
  simpl. intros -> -> -> Hdef Hcnt Hfind.
  unfold ten_extension_context_create_extension_group_done, filled_group,
    registered, installed, new_thread. simpl.
  unfold check_self, bind at 1, get at 1. simpl.
  unfold bind at 1, get at 1. simpl.
  assert (Htail : forall g0 : ten_extension_group_t, name g0 = name g ->
    (extension_thread <- ten_extension_thread_create g0 ;;
     (let extension_group := set_extension_thread extension_thread g0 in
      modify (with_context
                (fun c => set_extension_threads
                            (extension_threads c ++ [extension_thread]) c)) ;;
      e <- get ;;
      (if (extension_groups_cnt_of_the_current_app (app e) gis
           =? List.length (extension_threads (extension_context e)))%nat
       then
         ten_extension_context_add_extensions_info_from_graph ;;
         ten_extension_context_add_extension_groups_info_from_graph ;;
         info <- ten_extension_context_get_extension_group_info_by_name
                   (uri (app e)) (name extension_group) ;;
         TEN_ASSERT (match info with Some _ => true | None => false end)
           "Should not happen." ;;
         ten_extension_context_log_graph_resources ;;
         ten_extension_context_start ;;
         ret (set_extension_group_info info extension_group)
       else ret extension_group)))
      (mk_engine a id gn (mk_cmd mt ds eis gis)
         (mk_context true oc [] [] th r c t) fx n)
    = Done (set_extension_group_info (Some info)
              (set_extension_thread (mk_thread n (name g)) g0),
            with_effects
              (Log LOGM
                 (graph_resources_line
                    (mk_engine a id gn (mk_cmd mt ds eis gis)
                       (mk_context true oc [] [] th r c t) fx n))
               :: map Extension_thread_start (th ++ [mk_thread n (name g)]))
              (mk_engine a id gn (mk_cmd mt ds [] [])
                 (mk_context true oc gis eis (th ++ [mk_thread n (name g)]) r c t)
                 fx (S n)))).
  { intros g0 Hname.
    simpl in Hcnt.
    unfold ten_extension_thread_create, bind, get, modify, ret. simpl.
    rewrite length_app. simpl. rewrite Nat.add_1_r, Hcnt, Nat.eqb_refl.
    unfold ten_extension_context_add_extensions_info_from_graph,
      ten_extension_context_add_extension_groups_info_from_graph,
      ten_extension_context_get_extension_group_info_by_name,
      ten_extension_context_log_graph_resources,
      ten_extension_context_start, check_self, emit.
    unfold bind, get, modify, ret. simpl.
    rewrite Hname, Hfind. simpl. rewrite start_each_run.
    unfold with_effects, with_effect, graph_resources_line,
      graph_resources_json. simpl. rewrite <- app_assoc. reflexivity. }
  destruct (String.eqb (addon_host_name g) TEN_STR_DEFAULT_EXTENSION_GROUP)
    eqn:Hd.
  - specialize (Hdef eq_refl). unfold start_graph_with_one_dest in Hdef.
    simpl in Hdef. unfold bind at 1. unfold bind at 1. rewrite Hdef.
    rewrite TEN_ASSERT_true.
    destruct ds as [|dest_loc ds']; [now rewrite andb_false_r in Hdef|].
    unfold ret at 1. apply Htail. reflexivity.
  - unfold bind at 1, ret at 1. apply Htail. reflexivity.
Qed.

(** C5.  Whenever the completion callback runs through, that is its own
    assertions hold, the group it returns carries, for the built-in addon
    default_extension_group, exactly the (addon name, instance name) pairs
    of the extension infos of the start_graph command whose group is this
    group and whose app uri and graph id are those of the command's single
    destination, in graph order; for any other addon the list of the group
    is left as it was. *)
Theorem create_extension_group_done_pairs
  (e : ten_engine_t) (g : ten_extension_group_t) :
  signature (extension_context e) = true ->
  (String.eqb (addon_host_name g) TEN_STR_DEFAULT_EXTENSION_GROUP = true ->
   start_graph_with_one_dest (original_start_graph_cmd_of_enabling_engine e)
   = true) ->
  (extension_groups_cnt_of_the_current_app (app e)
     (cmd_extension_groups_info (original_start_graph_cmd_of_enabling_engine e))
   = S (List.length (extension_threads (extension_context e))) ->
   extensions_info_from_graph (extension_context e) = []
   /\ extension_groups_info_from_graph (extension_context e) = []
   /\ find_extension_group_info
        (cmd_extension_groups_info
           (original_start_graph_cmd_of_enabling_engine e))
        (uri (app e)) (name g) <> None) ->
  exists g' e',
    ten_extension_context_create_extension_group_done g e = Done (g', e')
    /\ name g' = name g
    /\ if String.eqb (addon_host_name g) TEN_STR_DEFAULT_EXTENSION_GROUP
       then
         exists dest_loc,
           msg_dests (original_start_graph_cmd_of_enabling_engine e) = [dest_loc]
           /\ extension_addon_and_instance_name_pairs g'
              = map addon_and_instance_name_pair
                  (filter
                     (scheduled_into (app_uri dest_loc) (graph_id dest_loc)
                        (name g))
                     (cmd_extensions_info
                        (original_start_graph_cmd_of_enabling_engine e)))
       else
         extension_addon_and_instance_name_pairs g'
         = extension_addon_and_instance_name_pairs g.
Proof.
  intros Hlive Hdef Hlast.
  assert (Hfilled :
    name (filled_group e g) = name g
    /\ if String.eqb (addon_host_name g) TEN_STR_DEFAULT_EXTENSION_GROUP
       then
         exists dest_loc,
           msg_dests (original_start_graph_cmd_of_enabling_engine e) = [dest_loc]
           /\ extension_addon_and_instance_name_pairs (filled_group e g)
              = map addon_and_instance_name_pair
                  (filter
                     (scheduled_into (app_uri dest_loc) (graph_id dest_loc)
                        (name g))
                     (cmd_extensions_info
                        (original_start_graph_cmd_of_enabling_engine e)))
       else
         extension_addon_and_instance_name_pairs (filled_group e g)
         = extension_addon_and_instance_name_pairs g).
  { unfold filled_group.
    destruct (String.eqb (addon_host_name g) TEN_STR_DEFAULT_EXTENSION_GROUP).
    - specialize (Hdef eq_refl). unfold start_graph_with_one_dest in Hdef.
      apply andb_prop in Hdef as [_ Hlen]. apply Nat.eqb_eq in Hlen.
      destruct (msg_dests (original_start_graph_cmd_of_enabling_engine e))
        as [|dest_loc [|]]; try discriminate.
      split; [reflexivity|]. exists dest_loc. split; reflexivity.
    - split; reflexivity. }
  destruct (Nat.eq_dec
              (extension_groups_cnt_of_the_current_app (app e)
                 (cmd_extension_groups_info
                    (original_start_graph_cmd_of_enabling_engine e)))
              (S (List.length (extension_threads (extension_context e)))))
    as [Heq|Hne].
  - destruct (Hlast Heq) as (He & Hg & Hfind).
    destruct (find_extension_group_info _ _ _) as [info|] eqn:Hinfo;
      [|contradiction].
    rewrite (callback_completes e g info Hlive He Hg Hdef Heq Hinfo).
    eexists. eexists. split; [reflexivity|]. exact Hfilled.
  - rewrite (callback_registers e g Hlive Hdef Hne).
    eexists. eexists. split; [reflexivity|]. exact Hfilled.
Qed.

Lemma create_extension_group_done_pairs_witness :
  exists g' e',
    ten_extension_context_create_extension_group_done
      (created_extension_group (local_group "default_extension_group" "group_a"))
      two_groups_engine = Done (g', e')
    /\ name g' = "group_a"
    /\ exists dest_loc,
         [start_graph_dest] = [dest_loc]
         /\ extension_addon_and_instance_name_pairs g'
            = map addon_and_instance_name_pair
                (filter
                   (scheduled_into (app_uri dest_loc) (graph_id dest_loc)
                      "group_a")
                   (cmd_extensions_info two_groups_cmd)).
Proof.
  apply (create_extension_group_done_pairs two_groups_engine
           (created_extension_group
              (local_group "default_extension_group" "group_a"))).
  - reflexivity.
  - reflexivity.
  - simpl. discriminate.
Defined.

(** *** The whole start sequence *)

Lemma cnt_of_the_current_app_is_length a l :
  extension_groups_cnt_of_the_current_app a l
  = List.length (filter (is_local a) l).
Proof.
  induction l as [|i rest IH]; simpl; [reflexivity|].
  destruct (is_local a i); simpl; now rewrite IH.
Qed.

Lemma registered_all_explicit l e :
  registered_all l e
  = mk_engine (app e) (engine_id e) (graph_name e)
      (original_start_graph_cmd_of_enabling_engine e)
      (set_extension_threads
         (extension_threads (extension_context e)
          ++ threads_for (threads_created e) l)
         (extension_context e))
      (effects e) (threads_created e + List.length l).
Proof.
  revert e. induction l as [|i rest IH]; intros e; simpl.
  - destruct e as [a id gn cmd [sg oc gl el th r c t] fx n]. simpl.
    unfold set_extension_threads. simpl.
    now rewrite app_nil_r, Nat.add_0_r.
  - rewrite IH. unfold registered, new_thread, set_extension_threads. simpl.
    now rewrite <- app_assoc, Nat.add_succ_r.
Qed.

Lemma threads_for_app k l1 l2 :
  threads_for k (l1 ++ l2)
  = threads_for k l1 ++ threads_for (k + List.length l1) l2.
Proof.
  revert k. induction l1 as [|i rest IH]; intros k; simpl.
  - now rewrite Nat.add_0_r.
  - now rewrite IH, Nat.add_succ_r.
Qed.

Lemma threads_for_groups k l :
  map thread_extension_group (threads_for k l)
  = map extension_group_instance_name l.
Proof.
  revert k. induction l as [|i rest IH]; intros k; simpl; [reflexivity|].
  now rewrite IH.
Qed.

Lemma threads_for_ids k l :
  map thread_id (threads_for k l) = seq k (List.length l).
Proof.
  revert k. induction l as [|i rest IH]; intros k; simpl; [reflexivity|].
  now rewrite IH.
Qed.

Lemma threads_for_NoDup k l : NoDup (threads_for k l).
Proof.
  apply (NoDup_map_inv thread_id). rewrite threads_for_ids. apply seq_NoDup.
Qed.

Lemma find_extension_group_info_local a l i :
  In i l -> is_local a i = true ->
  find_extension_group_info l (uri a) (extension_group_instance_name i) <> None.
Proof.
  induction l as [|x rest IH]; simpl; [intros []|].
  intros [->|Hin] Hloc.
  - unfold is_local in Hloc. rewrite Hloc, String.eqb_refl. discriminate.
  - destruct (_ && _); [discriminate|]. now apply IH.
Qed.

Lemma complete_creations_app l1 l2 e :
  complete_creations (l1 ++ l2) e
  = match complete_creations l1 e with
    | Done (gs1, e1) =>
        match complete_creations l2 e1 with
        | Done (gs2, e2) => Done (gs1 ++ gs2, e2)
        | Aborted why => Aborted why
        end
    | Aborted why => Aborted why
    end.
Proof.
  revert e. induction l1 as [|i rest IH]; intros e; simpl.
  - unfold ret. destruct (complete_creations l2 e) as [[gs2 e2]|]; reflexivity.
  - unfold bind.
    destruct (ten_extension_context_create_extension_group_done _ e)
      as [[g e0]|]; [|reflexivity].
    fold (@bind ten_engine_t). rewrite IH.
    destruct (complete_creations rest e0) as [[gs1 e1]|]; [|reflexivity].
    unfold ret.
    destruct (complete_creations l2 e1) as [[gs2 e2]|]; reflexivity.
Qed.

(** While fewer groups were created than the command has for this app, the
    callbacks only register threads. *)
Lemma complete_creations_registers l e :
  signature (extension_context e) = true ->
  start_graph_with_one_dest (original_start_graph_cmd_of_enabling_engine e)
  = true ->
  List.length (extension_threads (extension_context e)) + List.length l
  < extension_groups_cnt_of_the_current_app (app e)
      (cmd_extension_groups_info (original_start_graph_cmd_of_enabling_engine e)) ->
  exists gs,
    complete_creations l e = Done (gs, registered_all l e)
    /\ map name gs = map extension_group_instance_name l.
Proof.
  revert e. induction l as [|i rest IH]; intros e Hlive Hcmd Hlt; simpl.
  - exists []. split; reflexivity.
  - simpl in Hlt.
    rewrite (bind_done _ _ _ _ _
               (callback_registers e (created_extension_group i) Hlive
                  (fun _ => Hcmd) ltac:(lia))).
    destruct (IH (registered e (created_extension_group i))) as (gs & Hgs & Hn).
    + exact Hlive.
    + exact Hcmd.
    + simpl. rewrite length_app. simpl. lia.
    + rewrite (bind_done _ _ _ _ _ Hgs). unfold ret. eexists. split; [reflexivity|].
      simpl. rewrite Hn. f_equal. unfold filled_group.
      destruct (String.eqb _ _); [|reflexivity].
      destruct (msg_dests _); reflexivity.
Qed.

Lemma no_thread_start_in_requests l :
  filter is_thread_start (map creation_request l) = [].
Proof. induction l; simpl; auto. Qed.

Lemma no_graph_resources_in_requests l :
  filter is_graph_resources_log (map creation_request l) = [].
Proof. induction l; simpl; auto. Qed.

Lemma no_graph_resources_in_starts l :
  filter is_graph_resources_log (map Extension_thread_start l) = [].
Proof. induction l; simpl; auto. Qed.

Section Sequence.

Variable addon_found : string -> bool.

(** C3.  Take an engine whose extension context was just created, a
    start_graph command with at least one extension group of this app, all
    of whose addons are found, and let the posted creations complete in any
    order.  ten_extension_context_start_extension_group only posts the
    creations.  As long as a creation is still outstanding, the completion
    callbacks register one thread per created group and nothing else: no
    thread is started, no list is installed, nothing is logged.  The
    callback that makes the number of registered threads equal to the
    number of group infos of this app swaps both lists of the command into
    the context (the command is left with the empty lists the context had),
    logs the one graph resources line and then starts every registered
    thread, each once. *)
Theorem start_sequence_installs_and_starts
  (a : ten_app_t) (id gname : string) (cmd : ten_cmd_start_graph_t)
  (uninitialised_total_cnt : nat) (err : option ten_error_t)
  (order : list ten_extension_group_info_t) :
  let e := engine_with_fresh_context a id gname cmd uninitialised_total_cnt in
  let local := filter (is_local a) (cmd_extension_groups_info cmd) in
  start_graph_with_one_dest cmd = true ->
  local <> [] ->
  (forall i, In i local -> addon_found (extension_group_addon_name i) = true) ->
  Permutation order local ->
  exists e1,
    ten_extension_context_start_extension_group addon_found err e
    = Done ((true, err), e1)
    /\ effects e1 = effects e ++ map creation_request local
    /\ (forall done rest, order = done ++ rest -> rest <> [] ->
        exists gs e2,
          complete_creations done e1 = Done (gs, e2)
          /\ effects e2 = effects e1
          /\ filter is_thread_start (effects e2) = []
          /\ filter is_graph_resources_log (effects e2) = []
          /\ extensions_info_from_graph (extension_context e2) = []
          /\ extension_groups_info_from_graph (extension_context e2) = []
          /\ map thread_extension_group
               (extension_threads (extension_context e2))
             = map extension_group_instance_name done)
    /\ exists gs e3,
         complete_creations order e1 = Done (gs, e3)
         /\ extensions_info_from_graph (extension_context e3)
            = cmd_extensions_info cmd
         /\ extension_groups_info_from_graph (extension_context e3)
            = cmd_extension_groups_info cmd
         /\ cmd_extensions_info (original_start_graph_cmd_of_enabling_engine e3)
            = []
         /\ cmd_extension_groups_info
              (original_start_graph_cmd_of_enabling_engine e3) = []
         /\ map thread_extension_group
              (extension_threads (extension_context e3))
            = map extension_group_instance_name order
         /\ NoDup (extension_threads (extension_context e3))
         /\ effects e3
            = effects e1
              ++ Log LOGM (graph_resources_line e)
                 :: map Extension_thread_start
                      (extension_threads (extension_context e3))
         /\ filter is_graph_resources_log (effects e3)
            = [Log LOGM (graph_resources_line e)].
Proof.
  intros e local Hcmd Hne Hfound Hperm.
  assert (Hlen : List.length order
                 = extension_groups_cnt_of_the_current_app a
                     (cmd_extension_groups_info cmd)).
  { rewrite cnt_of_the_current_app_is_length. now apply Permutation_length. }
  exists (with_effects (map creation_request local) e).
  split.
  { rewrite start_extension_group_nonempty.
    - apply start_each_extension_group_posts.
      intros i Hi Hloc. apply Hfound. apply filter_In. split; assumption.
    - reflexivity.
    - intros Hnil. apply Hne. unfold local.
      change (cmd_extension_groups_info cmd)
        with (cmd_extension_groups_info
                (original_start_graph_cmd_of_enabling_engine e)).
      now rewrite Hnil. }
  split; [reflexivity|].
  split.
  { intros done rest -> Hrest.
    destruct (complete_creations_registers done
                (with_effects (map creation_request local) e))
      as (gs & Hgs & _).
    - reflexivity.
    - exact Hcmd.
    - simpl. rewrite <- Hlen, length_app.
      destruct rest; [now elim Hrest|]. simpl. lia.
    - exists gs. eexists. split; [exact Hgs|].
      rewrite registered_all_explicit. simpl.
      rewrite no_thread_start_in_requests, no_graph_resources_in_requests.
      repeat split; try reflexivity. apply threads_for_groups. }
  assert (Hlast : exists done last, order = done ++ [last]).
  { destruct (exists_last (l := order)) as (done & last & ->).
    - intros ->. apply Permutation_nil in Hperm. now elim Hne.
    - now exists done, last. }
  destruct Hlast as (done & last & ->).
  assert (Hin : In last local).
  { apply (Permutation_in _ Hperm). apply in_or_app. right. now left. }
  apply filter_In in Hin as [Hin Hloc].
  destruct (complete_creations_registers done
              (with_effects (map creation_request local) e))
    as (gs & Hgs & _).
  { reflexivity. }
  { exact Hcmd. }
  { simpl. rewrite <- Hlen, length_app. simpl. lia. }
  rewrite complete_creations_app, Hgs.
  destruct (find_extension_group_info (cmd_extension_groups_info cmd) (uri a)
              (extension_group_instance_name last)) as [info|] eqn:Hinfo;
    [|now elim (find_extension_group_info_local a _ last Hin Hloc)].
  simpl complete_creations.
  pose proof (registered_all_explicit done
                (with_effects (map creation_request local) e)) as HE.
  simpl in HE.
  assert (Hcomplete :
    ten_extension_context_create_extension_group_done
      (created_extension_group last)
      (registered_all done (with_effects (map creation_request local) e))
    = Done (set_extension_group_info (Some info)
              (set_extension_thread
                 (new_thread
                    (registered_all done
                       (with_effects (map creation_request local) e))
                    (created_extension_group last))
                 (filled_group
                    (registered_all done
                       (with_effects (map creation_request local) e))
                    (created_extension_group last))),
            with_effects
              (Log LOGM
                 (graph_resources_line
                    (registered_all done
                       (with_effects (map creation_request local) e)))
               :: map Extension_thread_start
                    (extension_threads
                       (extension_context
                          (registered_all done
                             (with_effects (map creation_request local) e)))
                     ++ [new_thread
                           (registered_all done
                              (with_effects (map creation_request local) e))
                           (created_extension_group last)]))
              (installed
                 (registered
                    (registered_all done
                       (with_effects (map creation_request local) e))
                    (created_extension_group last))))).
  { apply callback_completes; rewrite HE; simpl; try reflexivity.
    - intros _. exact Hcmd.
    - rewrite <- Hlen, length_app.
      rewrite <- (length_map thread_id), threads_for_ids, length_seq.
      simpl. lia.
    - exact Hinfo. }
  rewrite (bind_done _ _ _ _ _ Hcomplete).
  unfold bind, ret. eexists. eexists. split; [reflexivity|].
  rewrite HE. simpl. unfold new_thread. simpl.
  assert (Hth : threads_for 0 done
                ++ [mk_thread (List.length done)
                      (extension_group_instance_name last)]
                = threads_for 0 (done ++ [last])).
  { rewrite threads_for_app. reflexivity. }
  rewrite Hth.
  repeat split; try reflexivity.
  - apply threads_for_groups.
  - apply threads_for_NoDup.
  - rewrite filter_app, no_graph_resources_in_requests. simpl.
    rewrite no_graph_resources_in_starts. reflexivity.
Qed.

End Sequence.

Lemma start_sequence_witness :
  exists e1 gs e3,
    ten_extension_context_start_extension_group all_but_does_not_exist None
      two_groups_engine = Done ((true, None), e1)
    /\ complete_creations
         [local_group "custom_group_addon" "group_b";
          local_group "default_extension_group" "group_a"] e1
       = Done (gs, e3)
    /\ extension_groups_info_from_graph (extension_context e3)
       = cmd_extension_groups_info two_groups_cmd
    /\ map thread_extension_group (extension_threads (extension_context e3))
       = ["group_b"; "group_a"]
    /\ filter is_graph_resources_log (effects e3)
       = [Log LOGM (graph_resources_line two_groups_engine)].
Proof.
  destruct (start_sequence_installs_and_starts all_but_does_not_exist
              this_app "graph_1" EmptyString two_groups_cmd 0 None
              [local_group "custom_group_addon" "group_b";
               local_group "default_extension_group" "group_a"])
    as (e1 & Hstart & _ & _ & gs & e3 & Hrun & _ & Hgroups & _ & _ & Hth & _
        & _ & Hlog).
  - reflexivity.
  - simpl. discriminate.
  - simpl. intros i [<-|[<-|[]]]; reflexivity.
  - simpl. apply perm_swap.
  - exists e1, gs, e3. repeat split; assumption.
Defined.

(** *** The close sequence *)

Lemma thread_eqb_eq a b : thread_eqb a b = true <-> a = b.
Proof.
  destruct a as [i g], b as [j h]. unfold thread_eqb. simpl.
  rewrite andb_true_iff, Nat.eqb_eq, String.eqb_eq. split.
  - intros [-> ->]. reflexivity.
  - intros [= -> ->]. split; reflexivity.
Qed.

Lemma remove_ptr_perm t l :
  In t l -> Permutation l (t :: ten_list_remove_ptr t l).
Proof.
  induction l as [|x rest IH]; simpl; [intros []|]. intros Hin.
  destruct (thread_eqb t x) eqn:Heq.
  - apply thread_eqb_eq in Heq. subst. reflexivity.
  - destruct Hin as [->|Hin].
    + rewrite (proj2 (thread_eqb_eq t t) eq_refl) in Heq. discriminate.
    + etransitivity; [apply perm_skip, IH, Hin|apply perm_swap].
Qed.

(** The terminal step on a live context without threads. *)
Lemma terminal_step_runs e :
  signature (extension_context e) = true ->
  extension_threads (extension_context e) = [] ->
  exists e',
    ten_extension_context_do_close_after_all_extension_threads_are_closed e
    = Done (tt, e')
    /\ effects e' = effects e ++ terminal_step (extension_context e)
    /\ signature (extension_context e') = false
    /\ extension_threads (extension_context e') = []
    /\ extension_threads_cnt_of_closed (extension_context e')
       = extension_threads_cnt_of_closed (extension_context e)
    /\ extension_threads_total_cnt (extension_context e')
       = extension_threads_total_cnt (extension_context e).
Proof.
  destruct e as [a id gn cmd [sg oc gl el th r c t] fx n].
  simpl. intros -> ->.
  unfold ten_extension_context_do_close_after_all_extension_threads_are_closed,
    ten_extension_context_destroy, check_self, emit, terminal_step.
  destruct oc as [data|]; unfold bind, get, modify, ret; simpl;
    (eexists; split; [reflexivity|]); simpl; rewrite <- ?app_assoc;
    repeat split; reflexivity.
Qed.

Lemma notification_not_last t e :
  closing e ->
  In t (extension_threads (extension_context e)) ->
  2 <= List.length (extension_threads (extension_context e)) ->
  exists e',
    ten_engine_on_extension_thread_closed t e = Done (tt, e')
    /\ closing e'
    /\ extension_threads (extension_context e')
       = ten_list_remove_ptr t (extension_threads (extension_context e))
    /\ extension_threads_cnt_of_closed (extension_context e')
       = S (extension_threads_cnt_of_closed (extension_context e))
    /\ extension_threads_total_cnt (extension_context e')
       = extension_threads_total_cnt (extension_context e)
    /\ filter is_terminal_effect (effects e')
       = filter is_terminal_effect (effects e)
    /\ on_closed (extension_context e') = on_closed (extension_context e)
    /\ engine_id e' = engine_id e.
Proof.
  destruct e as [a id gn cmd [sg oc gl el th r c tot] fx n].
  unfold closing. simpl. intros (-> & Hnd & Hsum) Hin Hlen.
  pose proof (remove_ptr_perm t th Hin) as Hperm.
  pose proof (Permutation_length Hperm) as Hl. simpl in Hl.
  unfold ten_engine_on_extension_thread_closed,
    ten_extension_context_on_close, ten_extension_context_could_be_close,
    check_self, emit.
  unfold bind, get, modify, ret. cbn -[Nat.eqb].
  destruct (Nat.eqb_spec (S c) tot) as [Heq|Hne]; [lia|]. cbn -[Nat.eqb].
  eexists. split; [reflexivity|]. simpl.
  rewrite filter_app. simpl. rewrite app_nil_r.
  repeat split; try reflexivity.
  - apply (Permutation_NoDup Hperm) in Hnd. now inversion Hnd.
  - lia.
Qed.

Lemma notification_last t e :
  closing e ->
  extension_threads (extension_context e) = [t] ->
  exists e',
    ten_engine_on_extension_thread_closed t e = Done (tt, e')
    /\ effects e'
       = effects e ++ Log LOGD (can_be_closed_line e)
                      :: terminal_step (extension_context e)
    /\ signature (extension_context e') = false
    /\ extension_threads (extension_context e') = []
    /\ extension_threads_cnt_of_closed (extension_context e')
       = S (extension_threads_cnt_of_closed (extension_context e))
    /\ extension_threads_total_cnt (extension_context e')
       = extension_threads_total_cnt (extension_context e).
Proof.
  destruct e as [a id gn cmd [sg oc gl el th r c tot] fx n].
  unfold closing. simpl. intros (-> & Hnd & Hsum) ->. simpl in Hsum.
  unfold ten_engine_on_extension_thread_closed,
    ten_extension_context_on_close, ten_extension_context_could_be_close,
    ten_extension_context_do_close,
    ten_extension_context_do_close_after_all_extension_threads_are_closed,
    ten_extension_context_destroy, check_self, emit, terminal_step,
    can_be_closed_line.
  pose proof (proj2 (thread_eqb_eq t t) eq_refl) as Ht.
  unfold bind, get, modify, ret. cbn -[Nat.eqb thread_eqb].
  replace (S c =? tot)%nat with true by (symmetry; apply Nat.eqb_eq; lia).
  destruct oc as [data|]; cbn -[thread_eqb];
    repeat (rewrite Ht; cbn -[thread_eqb]);
    (eexists; split; [reflexivity|]); cbn -[thread_eqb];
    rewrite ?Ht, <- ?app_assoc; repeat split; reflexivity.
Qed.

Lemma notifications_app l1 l2 e :
  thread_closed_notifications (l1 ++ l2) e
  = match thread_closed_notifications l1 e with
    | Done (_, e1) => thread_closed_notifications l2 e1
    | Aborted why => Aborted why
    end.
Proof.
  revert e. induction l1 as [|t rest IH]; intros e; simpl; [reflexivity|].
  unfold bind.
  destruct (ten_engine_on_extension_thread_closed t e) as [[u e0]|];
    [apply IH|reflexivity].
Qed.

(** Notifications that leave at least one thread open: the counter follows
    them and the terminal step does not run. *)
Lemma notifications_before_the_last done rest e :
  closing e ->
  Permutation (done ++ rest) (extension_threads (extension_context e)) ->
  rest <> [] ->
  exists e',
    thread_closed_notifications done e = Done (tt, e')
    /\ closing e'
    /\ Permutation rest (extension_threads (extension_context e'))
    /\ extension_threads_cnt_of_closed (extension_context e')
       = extension_threads_cnt_of_closed (extension_context e)
         + List.length done
    /\ extension_threads_total_cnt (extension_context e')
       = extension_threads_total_cnt (extension_context e)
    /\ filter is_terminal_effect (effects e')
       = filter is_terminal_effect (effects e)
    /\ on_closed (extension_context e') = on_closed (extension_context e)
    /\ engine_id e' = engine_id e.
Proof.
  revert e. induction done as [|t done' IH]; intros e Hc Hperm Hrest; simpl.
  - exists e. rewrite Nat.add_0_r. repeat split; auto. apply Hc. apply Hc. apply Hc.
  - simpl in Hperm.
    assert (Hin : In t (extension_threads (extension_context e))).
    { apply (Permutation_in _ Hperm). now left. }
    assert (Hlen : 2 <= List.length (extension_threads (extension_context e))).
    { rewrite <- (Permutation_length Hperm). simpl. rewrite length_app.
      destruct rest; [now elim Hrest|]. simpl. lia. }
    destruct (notification_not_last t e Hc Hin Hlen)
      as (e1 & Hrun & Hc1 & Hth & Hcl & Htot & Hfx & Hcb & Hid).
    destruct (IH e1 Hc1) as (e2 & Hrun2 & Hc2 & Hp2 & Hcl2 & Htot2 & Hfx2 & Hcb2 & Hid2).
    + rewrite Hth. apply (Permutation_cons_inv (a := t)).
      etransitivity; [exact Hperm|]. now apply remove_ptr_perm.
    + exact Hrest.
    + exists e2. rewrite (bind_done _ _ _ _ _ Hrun).
      repeat split; try assumption; try congruence; try apply Hc2.
      rewrite Hcl2, Hcl. lia.
Qed.

Lemma terminal_step_same c c' :
  on_closed c = on_closed c' -> terminal_step c = terminal_step c'.
Proof. unfold terminal_step. now intros ->. Qed.

Lemma no_terminal_effect_in_closes l :
  filter is_terminal_effect (map Extension_thread_close l) = [].
Proof. induction l; simpl; auto. Qed.

Lemma close_with_threads e :
  signature (extension_context e) = true ->
  NoDup (extension_threads (extension_context e)) ->
  extension_threads (extension_context e) <> [] ->
  exists e1,
    ten_extension_context_close e = Done (tt, e1)
    /\ closing e1
    /\ extension_threads (extension_context e1)
       = extension_threads (extension_context e)
    /\ effects e1
       = effects e ++ Log LOGD (try_to_close_line e)
                      :: map Extension_thread_close
                           (extension_threads (extension_context e))
    /\ extension_threads_cnt_of_closed (extension_context e1) = 0
    /\ extension_threads_total_cnt (extension_context e1)
       = List.length (extension_threads (extension_context e))
    /\ on_closed (extension_context e1) = on_closed (extension_context e)
    /\ engine_id e1 = engine_id e.
Proof.
  destruct e as [a id gn cmd [sg oc gl el th r c tot] fx n].
  simpl. intros -> Hnd Hne.
  destruct th as [|t th']; [now elim Hne|].
  unfold ten_extension_context_close, check_self, emit, try_to_close_line.
  unfold bind, get, modify, ret. cbn -[close_each].
  rewrite close_each_run. eexists. split; [reflexivity|].
  unfold closing. simpl. rewrite <- app_assoc. repeat split; auto.
Qed.

(** The close sequence.  On a live extension context whose threads are
    pairwise distinct, close() runs the terminal step at once when no
    extension thread is registered, and leaves both counters as they were.
    Otherwise it sets extension_threads_cnt_of_closed to 0 and
    extension_threads_total_cnt to the number of threads and closes every
    thread; from then on, whatever the order in which the threads report
    that they closed, after each notification the closed count is the number
    of notifications received and never exceeds the total, the terminal step
    has not run while a notification is outstanding, and it runs, last of
    all, within the notification that makes the closed count equal to the
    total.  The terminal step closes the ten_env of the engine, calls
    on_closed when one is set and frees the context. *)
Theorem close_runs_terminal_step_when_all_threads_closed (e : ten_engine_t) :
  signature (extension_context e) = true ->
  NoDup (extension_threads (extension_context e)) ->
  exists e1,
    ten_extension_context_close e = Done (tt, e1)
    /\ (extension_threads (extension_context e) = [] ->
        effects e1
        = effects e ++ Log LOGD (try_to_close_line e)
                       :: terminal_step (extension_context e)
        /\ signature (extension_context e1) = false
        /\ extension_threads_cnt_of_closed (extension_context e1)
           = extension_threads_cnt_of_closed (extension_context e)
        /\ extension_threads_total_cnt (extension_context e1)
           = extension_threads_total_cnt (extension_context e))
    /\ (extension_threads (extension_context e) <> [] ->
        effects e1
        = effects e ++ Log LOGD (try_to_close_line e)
                       :: map Extension_thread_close
                            (extension_threads (extension_context e))
        /\ extension_threads_cnt_of_closed (extension_context e1) = 0
        /\ extension_threads_total_cnt (extension_context e1)
           = List.length (extension_threads (extension_context e))
        /\ forall done rest,
             Permutation (done ++ rest)
               (extension_threads (extension_context e)) ->
             exists e2,
               thread_closed_notifications done e1 = Done (tt, e2)
               /\ extension_threads_cnt_of_closed (extension_context e2)
                  = List.length done
               /\ extension_threads_total_cnt (extension_context e2)
                  = List.length (extension_threads (extension_context e))
               /\ extension_threads_cnt_of_closed (extension_context e2)
                  <= extension_threads_total_cnt (extension_context e2)
               /\ (rest <> [] ->
                   extension_threads_cnt_of_closed (extension_context e2)
                   < extension_threads_total_cnt (extension_context e2)
                   /\ signature (extension_context e2) = true
                   /\ filter is_terminal_effect (effects e2)
                      = filter is_terminal_effect (effects e))
               /\ (rest = [] ->
                   extension_threads_cnt_of_closed (extension_context e2)
                   = extension_threads_total_cnt (extension_context e2)
                   /\ signature (extension_context e2) = false
                   /\ exists before,
                        effects e2
                        = before ++ terminal_step (extension_context e)
                        /\ filter is_terminal_effect before
                           = filter is_terminal_effect (effects e))).
Proof.
  intros Hlive Hnd.
  destruct (extension_threads (extension_context e)) as [|t0 ts] eqn:Hth.
  - (* no thread: the terminal step runs within close *)
    destruct (terminal_step_runs
                (with_effect (Log LOGD (try_to_close_line e)) e))
      as (e1 & Hrun & Hfx & Hsig & _ & Hc & Ht); [exact Hlive|exact Hth|].
    exists e1. split.
    + unfold ten_extension_context_close.
      rewrite (bind_done _ _ _ _ _ (check_self_live e true Hlive)).
      unfold bind at 1, get. unfold bind at 1, emit, modify.
      rewrite Hth. exact Hrun.
    + split; [|intros H; now elim H]. intros _. simpl in Hfx.
      rewrite Hfx, <- app_assoc. auto.
  - destruct (close_with_threads e Hlive) as
      (e1 & Hrun & Hc1 & Hth1 & Hfx1 & Hcl1 & Htot1 & Hcb1 & Hid1).
    { now rewrite Hth. }
    { rewrite Hth. discriminate. }
    rewrite Hth in *. exists e1. split; [exact Hrun|].
    split; [discriminate|]. intros _.
    split; [exact Hfx1|]. split; [exact Hcl1|]. split; [exact Htot1|].
    intros done rest Hperm.
    assert (Hfilter : filter is_terminal_effect (effects e1)
                      = filter is_terminal_effect (effects e)).
    { rewrite Hfx1, filter_app. simpl.
      rewrite no_terminal_effect_in_closes. now rewrite app_nil_r. }
    destruct rest as [|r rest'].
    + (* every thread has reported: the last notification ran the step *)
      rewrite app_nil_r in Hperm.
      destruct (exists_last (l := done)) as (done' & t & ->).
      { intros ->. apply Permutation_nil in Hperm. discriminate. }
      destruct (notifications_before_the_last done' [t] e1 Hc1)
        as (e2 & Hrun2 & Hc2 & Hp2 & Hcl2 & Htot2 & Hfx2 & Hcb2 & Hid2).
      { now rewrite Hth1. }
      { discriminate. }
      apply Permutation_length_1_inv in Hp2.
      destruct (notification_last t e2 Hc2 Hp2)
        as (e3 & Hrun3 & Hfx3 & Hsig3 & Hth3 & Hcl3 & Htot3).
      exists e3. rewrite notifications_app, Hrun2. simpl.
      rewrite (bind_done _ _ _ _ _ Hrun3). unfold ret.
      destruct Hc2 as (_ & _ & Hsum2). rewrite Hp2 in Hsum2. simpl in Hsum2.
      rewrite length_app. simpl in *.
      split; [reflexivity|]. split; [lia|]. split; [lia|]. split; [lia|].
      split; [intros H; now elim H|]. intros _.
      split; [lia|]. split; [exact Hsig3|].
      exists (effects e2 ++ [Log LOGD (can_be_closed_line e2)]).
      rewrite Hfx3, <- app_assoc. simpl. split.
      * f_equal. f_equal. apply terminal_step_same. congruence.
      * rewrite filter_app. simpl. rewrite app_nil_r. congruence.
    + destruct (notifications_before_the_last done (r :: rest') e1 Hc1)
        as (e2 & Hrun2 & Hc2 & Hp2 & Hcl2 & Htot2 & Hfx2 & Hcb2 & Hid2).
      { now rewrite Hth1. }
      { discriminate. }
      exists e2. split; [exact Hrun2|].
      pose proof (Permutation_length Hperm) as Hlen.
      rewrite length_app in Hlen. simpl in Hlen.
      split; [lia|]. split; [lia|]. split; [simpl in *; lia|].
      split; [|discriminate]. intros _.
      split; [simpl in *; lia|]. split; [apply Hc2|]. congruence.
Qed.

Lemma close_runs_terminal_step_witness :
  exists e1,
    ten_extension_context_close three_threads_engine = Done (tt, e1)
    /\ extension_threads_total_cnt (extension_context e1) = 3
    /\ exists e2,
         thread_closed_notifications
           [mk_thread 2 "group_c"; mk_thread 0 "group_a"; mk_thread 1 "group_b"]
           e1 = Done (tt, e2)
         /\ extension_threads_cnt_of_closed (extension_context e2) = 3
         /\ signature (extension_context e2) = false.
Proof.
  destruct (close_runs_terminal_step_when_all_threads_closed
              three_threads_engine) as (e1 & Hrun & _ & Hthreads).
  - reflexivity.
  - apply (NoDup_map_inv thread_id). simpl. apply (seq_NoDup 3 0).
  - destruct Hthreads as (_ & _ & Htot & Hnotify); [discriminate|].
    exists e1. split; [exact Hrun|]. split; [exact Htot|].
    destruct (Hnotify
                [mk_thread 2 "group_c"; mk_thread 0 "group_a";
                 mk_thread 1 "group_b"] [])
      as (e2 & Hrun2 & Hcl & _ & _ & _ & Hdone).
    + simpl. unfold three_threads.
      apply (Permutation_cons_app [_; _] []). reflexivity.
    + exists e2. split; [exact Hrun2|]. split; [exact Hcl|].
      now destruct (Hdone eq_refl) as (_ & Hsig & _).
Defined.

(** C2.  The counters can differ when the terminal step runs.
    ten_extension_context_create sets the ready and the closed count to 0
    and leaves extension_threads_total_cnt as the allocator gave it, here
    7; only close() with registered threads writes it.  With no extension
    thread, close() on the context just created runs the terminal step at
    once and touches neither counter: the step has run while the closed
    count, 0, is not the total count. *)
Lemma close_without_threads_counts_differ :
  exists e1,
    ten_extension_context_close no_thread_engine = Done (tt, e1)
    /\ effects e1
       = effects no_thread_engine
         ++ [Log LOGD (try_to_close_line no_thread_engine);
             Ten_env_close; Extension_context_free]
    /\ extension_threads_cnt_of_closed (extension_context e1) = 0
    /\ extension_threads_total_cnt (extension_context e1) = 7
    /\ extension_threads_cnt_of_closed (extension_context e1)
       <> extension_threads_total_cnt (extension_context e1).
Proof.
  eexists. split; [reflexivity|]. simpl. repeat split. discriminate.
Qed.

(** *** Further properties of extension_context.c *)

Section MoreStart.

Variable addon_found : string -> bool.

(** X1.  On a command with extension group infos, all of whose groups of
    this app resolve, ten_extension_context_start_extension_group returns
    true, leaves the error alone, posts one creation per group of this app,
    in the order of the command, and touches nothing else: neither the
    context nor the command changes, no thread is started.  When no group
    belongs to this app the engine is left exactly as it was. *)
Theorem start_extension_group_only_posts
  (e : ten_engine_t) (err : option ten_error_t) :
  signature (extension_context e) = true ->
  cmd_extension_groups_info (original_start_graph_cmd_of_enabling_engine e)
  <> [] ->
  (forall i,
     In i (cmd_extension_groups_info
             (original_start_graph_cmd_of_enabling_engine e)) ->
     is_local (app e) i = true ->
     addon_found (extension_group_addon_name i) = true) ->
  exists e',
    ten_extension_context_start_extension_group addon_found err e
    = Done ((true, err), e')
    /\ effects e'
       = effects e
         ++ map creation_request
              (filter (is_local (app e))
                 (cmd_extension_groups_info
                    (original_start_graph_cmd_of_enabling_engine e)))
    /\ extension_context e' = extension_context e
    /\ original_start_graph_cmd_of_enabling_engine e'
       = original_start_graph_cmd_of_enabling_engine e
    /\ threads_created e' = threads_created e
    /\ (filter (is_local (app e))
          (cmd_extension_groups_info
             (original_start_graph_cmd_of_enabling_engine e)) = [] ->
        e' = e).
Proof.
  intros Hlive Hne Hfound. eexists. split.
  - rewrite start_extension_group_nonempty by assumption.
    now apply start_each_extension_group_posts.
  - split; [reflexivity|]. split; [reflexivity|]. split; [reflexivity|].
    split; [reflexivity|]. intros ->. apply with_effects_nil.
Qed.

Lemma start_each_extension_group_stops_any before g after err e :
  is_local (app e) g = true ->
  addon_found (extension_group_addon_name g) = false ->
  (forall i, In i before -> is_local (app e) i = true ->
             addon_found (extension_group_addon_name i) = true) ->
  start_each_extension_group addon_found (before ++ g :: after) err e
  = Done ((false,
           option_map
             (fun _ => mk_error TEN_ERROR_CODE_GENERIC
                         (unable_to_find (extension_group_addon_name g)))
             err),
          with_effects
            (map creation_request (filter (is_local (app e)) before)
             ++ [Log LOGE (failed_to_start_line e g)]) e).
Proof.
  intros Hloc Hmiss. revert e Hloc.
  induction before as [|i rest IH]; intros e Hloc Hfound; simpl.
  - unfold bind at 1, get. fold (is_local (app e) g). rewrite Hloc.
    unfold bind at 1, ten_addon_create_extension_group. rewrite Hmiss.
    unfold ret at 1. simpl negb. cbv iota.
    unfold bind, emit, modify, ret. simpl.
    rewrite <- (with_effects_nil (with_effect _ e)), with_effects_cons.
    destruct err; reflexivity.
  - unfold bind at 1, get. fold (is_local (app e) i).
    destruct (is_local (app e) i) eqn:Hi.
    + unfold bind at 1, ten_addon_create_extension_group.
      rewrite (Hfound i (or_introl eq_refl) Hi).
      unfold bind at 1, emit, modify. unfold bind at 1, ret. simpl negb. cbv iota.
      rewrite IH.
      * simpl. rewrite with_effects_cons. reflexivity.
      * exact Hloc.
      * intros j Hj. apply Hfound. now right.
    + apply IH; [exact Hloc|]. intros j Hj. apply Hfound. now right.
Qed.

(** X2.  The error object is optional.  When a group of this app has an
    addon that cannot be found and the caller passed no error object (NULL),
    ten_extension_context_start_extension_group still returns false and
    produces no error; with an error object it fills it in.  What it did to
    the engine, the creations posted before the failure and the logged
    line, is the same in both cases. *)
Theorem start_extension_group_error_is_optional
  (e : ten_engine_t) (g : ten_extension_group_info_t) :
  signature (extension_context e) = true ->
  In g (cmd_extension_groups_info
          (original_start_graph_cmd_of_enabling_engine e)) ->
  is_local (app e) g = true ->
  addon_found (extension_group_addon_name g) = false ->
  exists e' message,
    ten_extension_context_start_extension_group addon_found None e
    = Done ((false, None), e')
    /\ (forall err,
          ten_extension_context_start_extension_group addon_found (Some err) e
          = Done ((false, Some (mk_error TEN_ERROR_CODE_GENERIC message)), e'))
    /\ extension_context e' = extension_context e
    /\ original_start_graph_cmd_of_enabling_engine e'
       = original_start_graph_cmd_of_enabling_engine e.
Proof.
  intros Hlive Hin Hloc Hmiss.
  destruct (first_such (unresolved addon_found (app e)) _ g Hin)
    as (before & g1 & after & Hsplit & Hg1 & Hbefore).
  { unfold unresolved. unfold is_local in Hloc. now rewrite Hloc, Hmiss. }
  unfold unresolved in Hg1. apply andb_prop in Hg1 as [Hl1 Hm1].
  apply negb_true_iff in Hm1.
  assert (Hfound : forall i, In i before -> is_local (app e) i = true ->
                     addon_found (extension_group_addon_name i) = true).
  { intros i Hi Hli. specialize (Hbefore i Hi). unfold unresolved in Hbefore.
    unfold is_local in Hli. rewrite Hli in Hbefore. simpl in Hbefore.
    now apply negb_false_iff in Hbefore. }
  assert (Hne : cmd_extension_groups_info
                  (original_start_graph_cmd_of_enabling_engine e) <> []).
  { rewrite Hsplit. now destruct before. }
  eexists. exists (unable_to_find (extension_group_addon_name g1)).
  split; [|split].
  - rewrite start_extension_group_nonempty, Hsplit by assumption.
    now apply (start_each_extension_group_stops_any before g1 after None e).
  - intros err.
    rewrite start_extension_group_nonempty, Hsplit by assumption.
    now apply (start_each_extension_group_stops_any before g1 after (Some err) e).
  - split; reflexivity.
Qed.

End MoreStart.

Lemma start_extension_group_only_posts_witness :
  exists e',
    ten_extension_context_start_extension_group all_but_does_not_exist None
      two_groups_engine = Done ((true, None), e')
    /\ effects e'
       = effects two_groups_engine
         ++ [Addon_create_extension_group "default_extension_group" "group_a";
             Addon_create_extension_group "custom_group_addon" "group_b"]
    /\ extension_context e' = extension_context two_groups_engine.
Proof.
  destruct (start_extension_group_only_posts all_but_does_not_exist
              two_groups_engine None)
    as (e' & Hrun & Hfx & Hctx & _).
  - reflexivity.
  - discriminate.
  - simpl. intros i [<-|[<-|[<-|[]]]] _; reflexivity.
  - exists e'. split; [exact Hrun|]. split; [exact Hfx|exact Hctx].
Defined.

Lemma start_extension_group_error_is_optional_witness :
  exists e' message,
    ten_extension_context_start_extension_group all_but_does_not_exist None
      missing_addon_engine = Done ((false, None), e')
    /\ ten_extension_context_start_extension_group all_but_does_not_exist
         (Some (mk_error TEN_ERROR_CODE_OK EmptyString)) missing_addon_engine
       = Done ((false, Some (mk_error TEN_ERROR_CODE_GENERIC message)), e').
Proof.
  destruct (start_extension_group_error_is_optional all_but_does_not_exist
              missing_addon_engine (local_group "does_not_exist" "group_b"))
    as (e' & message & Hnone & Hsome & _).
  - reflexivity.
  - simpl. auto.
  - reflexivity.
  - reflexivity.
  - exists e', message. split; [exact Hnone|apply Hsome].
Defined.

(** X4.  ten_extension_context_on_close on a live context has three
    outcomes.  While the closed count differs from the total count it only
    logs that the context is still alive.  When the counts agree and no
    thread is registered it runs the terminal step.  When the counts agree
    but a thread is still registered, the assertion of
    ten_extension_context_do_close stops the run: the terminal step never
    runs over registered threads. *)
Theorem on_close_outcomes (e : ten_engine_t) :
  signature (extension_context e) = true ->
  (extension_threads_cnt_of_closed (extension_context e)
   <> extension_threads_total_cnt (extension_context e) ->
   ten_extension_context_on_close e
   = Done (tt, with_effect (Log LOGD (could_not_close_line e)) e))
  /\ (extension_threads_cnt_of_closed (extension_context e)
      = extension_threads_total_cnt (extension_context e) ->
      extension_threads (extension_context e) <> [] ->
      ten_extension_context_on_close e = Aborted "Should not happen.")
  /\ (extension_threads_cnt_of_closed (extension_context e)
      = extension_threads_total_cnt (extension_context e) ->
      extension_threads (extension_context e) = [] ->
      exists e',
        ten_extension_context_on_close e = Done (tt, e')
        /\ effects e'
           = effects e ++ Log LOGD (can_be_closed_line e)
                          :: terminal_step (extension_context e)
        /\ signature (extension_context e') = false).
Proof.
  destruct e as [a id gn cmd [sg oc gl el th r c tot] fx n].
  simpl. intros ->.
  unfold ten_extension_context_on_close, ten_extension_context_could_be_close,
    ten_extension_context_do_close,
    ten_extension_context_do_close_after_all_extension_threads_are_closed,
    ten_extension_context_destroy, check_self, emit, terminal_step,
    could_not_close_line, can_be_closed_line.
  unfold bind, get, modify, ret. cbn -[Nat.eqb].
  split; [|split].
  - intros Hne. apply Nat.eqb_neq in Hne. rewrite Hne. reflexivity.
  - intros -> Hth. rewrite Nat.eqb_refl. cbn.
    destruct th; [now elim Hth|reflexivity].
  - intros -> ->. rewrite Nat.eqb_refl.
    destruct oc as [data|]; cbn; (eexists; split; [reflexivity|]); cbn;
      rewrite <- ?app_assoc; split; reflexivity.
Qed.

Lemma on_close_outcomes_witness :
  ten_extension_context_on_close three_threads_engine
  = Done (tt,
          with_effect (Log LOGD (could_not_close_line three_threads_engine))
            three_threads_engine).
Proof.
  destruct (on_close_outcomes three_threads_engine eq_refl) as (Hne & _).
  apply Hne. discriminate.
Defined.

(** X5.  The on_closed callback that the terminal step invokes is the one
    registered last: ten_extension_context_set_on_closed overwrites the
    callback and its data.  After two registrations and a close() without
    threads, the ten_env is closed, then the second callback is invoked,
    once, then the context is freed; when the second registration clears
    the callback (NULL), nothing is invoked between the two. *)
Theorem last_on_closed_is_invoked (e : ten_engine_t) (cb1 cb2 : option nat) :
  signature (extension_context e) = true ->
  extension_threads (extension_context e) = [] ->
  exists e',
    bind (ten_extension_context_set_on_closed cb1)
      (fun _ => bind (ten_extension_context_set_on_closed cb2)
                  (fun _ => ten_extension_context_close)) e
    = Done (tt, e')
    /\ effects e'
       = effects e
         ++ Log LOGD (try_to_close_line e)
            :: Ten_env_close
            :: match cb2 with
               | Some on_closed_data => [On_closed on_closed_data]
               | None => []
               end
            ++ [Extension_context_free].
Proof.
  destruct e as [a id gn cmd [sg oc gl el th r c t] fx n].
  simpl. intros -> ->.
  unfold ten_extension_context_set_on_closed, ten_extension_context_close,
    ten_extension_context_do_close_after_all_extension_threads_are_closed,
    ten_extension_context_destroy, check_self, emit, try_to_close_line.
  destruct cb2 as [data|]; unfold bind, get, modify, ret; simpl;
    (eexists; split; [reflexivity|]); simpl; rewrite <- ?app_assoc;
    reflexivity.
Qed.

Lemma last_on_closed_is_invoked_witness :
  exists e',
    bind (ten_extension_context_set_on_closed (Some 1))
      (fun _ => bind (ten_extension_context_set_on_closed (Some 2))
                  (fun _ => ten_extension_context_close)) empty_graph_engine
    = Done (tt, e')
    /\ effects e'
       = effects empty_graph_engine
         ++ [Log LOGD (try_to_close_line empty_graph_engine);
             Ten_env_close; On_closed 2; Extension_context_free].
Proof.
  exact (last_on_closed_is_invoked empty_graph_engine (Some 1) (Some 2)
           eq_refl eq_refl).
Defined.

(** X6.  The graph is installed once.  After
    ten_extension_context_start_extension_group has installed an empty
    graph, the lists of the command are the empty lists the context had.
    A second call finds no group info again and tries to install again:
    when the first call installed a non-empty extension info list, the
    assertion that the context list is empty stops it; when that list was
    empty too, the second call succeeds and changes neither the context nor
    the command. *)
Theorem empty_graph_is_installed_once
  (addon_found : string -> bool) (e : ten_engine_t) (err : option ten_error_t) :
  signature (extension_context e) = true ->
  extensions_info_from_graph (extension_context e) = [] ->
  extension_groups_info_from_graph (extension_context e) = [] ->
  cmd_extension_groups_info (original_start_graph_cmd_of_enabling_engine e) = [] ->
  exists e1,
    ten_extension_context_start_extension_group addon_found err e
    = Done ((true, err), e1)
    /\ (cmd_extensions_info (original_start_graph_cmd_of_enabling_engine e)
        <> [] ->
        forall err',
          ten_extension_context_start_extension_group addon_found err' e1
          = Aborted "Should not happen.")
    /\ (cmd_extensions_info (original_start_graph_cmd_of_enabling_engine e)
        = [] ->
        forall err',
          exists e2,
            ten_extension_context_start_extension_group addon_found err' e1
            = Done ((true, err'), e2)
            /\ extension_context e2 = extension_context e1
            /\ original_start_graph_cmd_of_enabling_engine e2
               = original_start_graph_cmd_of_enabling_engine e1).
Proof.
  destruct e as [a id gn [mt ds eis gis] [sg oc gl el th r c t] fx n].
  simpl. intros -> -> -> ->.
  unfold ten_extension_context_start_extension_group,
    ten_extension_context_add_extensions_info_from_graph,
    ten_extension_context_add_extension_groups_info_from_graph,
    ten_extension_context_start, check_self, bind, get, modify, ret. simpl.
  rewrite start_each_run. simpl.
  eexists. split; [reflexivity|]. simpl. split.
  - intros Hne err'. destruct eis; [now elim Hne|reflexivity].
  - intros -> err'. simpl. rewrite start_each_run. simpl.
    eexists. split; [reflexivity|]. split; reflexivity.
Qed.

Lemma empty_graph_is_installed_once_witness :
  exists e1 e2,
    ten_extension_context_start_extension_group all_but_does_not_exist None
      empty_graph_engine = Done ((true, None), e1)
    /\ ten_extension_context_start_extension_group all_but_does_not_exist None
         e1 = Done ((true, None), e2)
    /\ extension_context e2 = extension_context e1.
Proof.
  destruct (empty_graph_is_installed_once all_but_does_not_exist
              empty_graph_engine None eq_refl eq_refl eq_refl eq_refl)
    as (e1 & Hrun & _ & Hagain).
  destruct (Hagain eq_refl None) as (e2 & Hrun2 & Hctx & _).
  exists e1, e2. split; [exact Hrun|]. split; [exact Hrun2|exact Hctx].
Defined.

Lemma find_extension_group_info_found l u n info :
  find_extension_group_info l u n = Some info ->
  In info l /\ app_uri (gi_loc info) = u
  /\ extension_group_instance_name info = n.
Proof.
  induction l as [|x rest IH]; simpl; [discriminate|].
  destruct (String.eqb (app_uri (gi_loc x)) u
            && String.eqb (extension_group_instance_name x) n) eqn:Hx.
  - intros [= <-]. apply andb_prop in Hx as [Hu Hn].
    apply String.eqb_eq in Hu, Hn. auto.
  - intros H. destruct (IH H) as (Hin & Hu & Hn). auto.
Qed.

Lemma filled_group_keeps e g :
  name (filled_group e g) = name g
  /\ extension_group_info (filled_group e g) = extension_group_info g
  /\ group_app (filled_group e g) = Some (app e)
  /\ group_extension_context_bound (filled_group e g) = true.
Proof.
  unfold filled_group. destruct (String.eqb _ _).
  - destruct (msg_dests _); repeat split.
  - repeat split.
Qed.

(** The completing callback of a group that the command does not name for
    this app stops on its assertion. *)
Lemma callback_aborts_on_unknown_group e g :
  signature (extension_context e) = true ->
  extensions_info_from_graph (extension_context e) = [] ->
  extension_groups_info_from_graph (extension_context e) = [] ->
  (String.eqb (addon_host_name g) TEN_STR_DEFAULT_EXTENSION_GROUP = true ->
   start_graph_with_one_dest (original_start_graph_cmd_of_enabling_engine e)
   = true) ->
  extension_groups_cnt_of_the_current_app (app e)
    (cmd_extension_groups_info (original_start_graph_cmd_of_enabling_engine e))
  = S (List.length (extension_threads (extension_context e))) ->
  find_extension_group_info
    (cmd_extension_groups_info (original_start_graph_cmd_of_enabling_engine e))
    (uri (app e)) (name g) = None ->
  ten_extension_context_create_extension_group_done g e
  = Aborted "Should not happen.".
Proof.
  destruct e as [a id gn [mt ds eis gis] [sg oc gl el th r c t] fx n].
  simpl. intros -> -> -> Hdef Hcnt Hfind.
  unfold ten_extension_context_create_extension_group_done. simpl.
  unfold check_self, bind at 1, get at 1. simpl.
  unfold bind at 1, get at 1. simpl.
  assert (Htail : forall g0 : ten_extension_group_t, name g0 = name g ->
    (extension_thread <- ten_extension_thread_create g0 ;;
     (let extension_group := set_extension_thread extension_thread g0 in
      modify (with_context
                (fun c => set_extension_threads
                            (extension_threads c ++ [extension_thread]) c)) ;;
      e <- get ;;
      (if (extension_groups_cnt_of_the_current_app (app e) gis
           =? List.length (extension_threads (extension_context e)))%nat
       then
         ten_extension_context_add_extensions_info_from_graph ;;
         ten_extension_context_add_extension_groups_info_from_graph ;;
         info <- ten_extension_context_get_extension_group_info_by_name
                   (uri (app e)) (name extension_group) ;;
         TEN_ASSERT (match info with Some _ => true | None => false end)
           "Should not happen." ;;
         ten_extension_context_log_graph_resources ;;
         ten_extension_context_start ;;
         ret (set_extension_group_info info extension_group)
       else ret extension_group)))
      (mk_engine a id gn (mk_cmd mt ds eis gis)
         (mk_context true oc [] [] th r c t) fx n)
    = Aborted "Should not happen.").
  { intros g0 Hname. simpl in Hcnt.
    unfold ten_extension_thread_create, bind, get, modify, ret. simpl.
    rewrite length_app. simpl. rewrite Nat.add_1_r, Hcnt, Nat.eqb_refl.
    unfold ten_extension_context_add_extensions_info_from_graph,
      ten_extension_context_add_extension_groups_info_from_graph,
      ten_extension_context_get_extension_group_info_by_name,
      check_self.
    unfold bind, get, modify, ret. simpl.
    rewrite Hname, Hfind. reflexivity. }
  destruct (String.eqb (addon_host_name g) TEN_STR_DEFAULT_EXTENSION_GROUP)
    eqn:Hd.
  - specialize (Hdef eq_refl). unfold start_graph_with_one_dest in Hdef.
    simpl in Hdef. unfold bind at 1. unfold bind at 1. rewrite Hdef.
    rewrite TEN_ASSERT_true.
    destruct ds as [|dest_loc ds']; [now rewrite andb_false_r in Hdef|].
    unfold ret at 1. apply Htail. reflexivity.
  - unfold bind at 1, ret at 1. apply Htail. reflexivity.
Qed.

(** X7.  The completion callback binds every group to the app and gives it
    its new thread, but it sets extension_group_info only for the group
    whose creation completes the set.  A group created while others are
    outstanding is returned with the extension_group_info it came with.
    The completing group receives the first group info of the installed
    list that has this app's uri and the group's name; when the command has
    no such info the assertion on the lookup stops the run. *)
Theorem callback_sets_group_info_only_when_complete
  (e : ten_engine_t) (g : ten_extension_group_t) :
  signature (extension_context e) = true ->
  (String.eqb (addon_host_name g) TEN_STR_DEFAULT_EXTENSION_GROUP = true ->
   start_graph_with_one_dest (original_start_graph_cmd_of_enabling_engine e)
   = true) ->
  (extension_groups_cnt_of_the_current_app (app e)
     (cmd_extension_groups_info (original_start_graph_cmd_of_enabling_engine e))
   <> S (List.length (extension_threads (extension_context e))) ->
   exists g',
     ten_extension_context_create_extension_group_done g e
     = Done (g', registered e g)
     /\ extension_group_info g' = extension_group_info g
     /\ extension_thread g' = Some (new_thread e g)
     /\ group_app g' = Some (app e))
  /\ (extension_groups_cnt_of_the_current_app (app e)
        (cmd_extension_groups_info
           (original_start_graph_cmd_of_enabling_engine e))
      = S (List.length (extension_threads (extension_context e))) ->
      extensions_info_from_graph (extension_context e) = [] ->
      extension_groups_info_from_graph (extension_context e) = [] ->
      (find_extension_group_info
         (cmd_extension_groups_info
            (original_start_graph_cmd_of_enabling_engine e))
         (uri (app e)) (name g) = None ->
       ten_extension_context_create_extension_group_done g e
       = Aborted "Should not happen.")
      /\ forall info,
           find_extension_group_info
             (cmd_extension_groups_info
                (original_start_graph_cmd_of_enabling_engine e))
             (uri (app e)) (name g) = Some info ->
           exists g' e',
             ten_extension_context_create_extension_group_done g e
             = Done (g', e')
             /\ extension_group_info g' = Some info
             /\ extension_thread g' = Some (new_thread e g)
             /\ group_app g' = Some (app e)
             /\ In info (extension_groups_info_from_graph
                           (extension_context e'))
             /\ app_uri (gi_loc info) = uri (app e)
             /\ extension_group_instance_name info = name g).
Proof.
  intros Hlive Hdef.
  destruct (filled_group_keeps e g) as (_ & Hinfo & Happ & _).
  split.
  - intros Hne. eexists. split; [now apply callback_registers|].
    simpl. repeat split; assumption.
  - intros Heq Hel Hgl. split.
    + now apply callback_aborts_on_unknown_group.
    + intros info Hfind.
      destruct (find_extension_group_info_found _ _ _ _ Hfind)
        as (Hin & Hu & Hn).
      eexists. eexists.
      split; [now apply (callback_completes e g info)|].
      simpl. repeat split; assumption.
Qed.

Lemma callback_sets_group_info_only_when_complete_witness :
  exists g',
    ten_extension_context_create_extension_group_done
      (created_extension_group (local_group "custom_group_addon" "group_b"))
      two_groups_engine
    = Done (g',
            registered two_groups_engine
              (created_extension_group
                 (local_group "custom_group_addon" "group_b")))
    /\ extension_group_info g' = None.
Proof.
  destruct (callback_sets_group_info_only_when_complete two_groups_engine
              (created_extension_group
                 (local_group "custom_group_addon" "group_b")))
    as (Hearly & _).
  - reflexivity.
  - discriminate.
  - destruct Hearly as (g' & Hrun & Hinfo & _); [simpl; discriminate|].
    exists g'. split; [exact Hrun|exact Hinfo].
Defined.

(** X8.  Every completion callback that runs through registers exactly one
    thread, at the end of extension_threads, under a handle that no
    registered thread has: the threads registered before keep their places,
    and the registered threads stay pairwise distinct. *)
Theorem callback_registers_one_new_thread
  (e : ten_engine_t) (g : ten_extension_group_t) :
  signature (extension_context e) = true ->
  (String.eqb (addon_host_name g) TEN_STR_DEFAULT_EXTENSION_GROUP = true ->
   start_graph_with_one_dest (original_start_graph_cmd_of_enabling_engine e)
   = true) ->
  (extension_groups_cnt_of_the_current_app (app e)
     (cmd_extension_groups_info (original_start_graph_cmd_of_enabling_engine e))
   = S (List.length (extension_threads (extension_context e))) ->
   extensions_info_from_graph (extension_context e) = []
   /\ extension_groups_info_from_graph (extension_context e) = []
   /\ find_extension_group_info
        (cmd_extension_groups_info
           (original_start_graph_cmd_of_enabling_engine e))
        (uri (app e)) (name g) <> None) ->
  handles_fresh e ->
  exists g' e',
    ten_extension_context_create_extension_group_done g e = Done (g', e')
    /\ extension_threads (extension_context e')
       = extension_threads (extension_context e) ++ [new_thread e g]
    /\ ~ In (new_thread e g) (extension_threads (extension_context e))
    /\ extension_thread g' = Some (new_thread e g)
    /\ thread_extension_group (new_thread e g) = name g
    /\ handles_fresh e'.
Proof.
  intros Hlive Hdef Hlast (Hnd & Hold).
  assert (Hnew : ~ In (new_thread e g)
                     (extension_threads (extension_context e))).
  { intros Hin. apply Hold in Hin. unfold new_thread in Hin. simpl in Hin. lia. }
  assert (Hfresh : forall threads created,
            threads = extension_threads (extension_context e)
                      ++ [new_thread e g] ->
            created = S (threads_created e) ->
            NoDup threads
            /\ forall t, In t threads -> thread_id t < created).
  { intros threads created -> ->. split.
    - apply NoDup_app; [exact Hnd|repeat constructor; intros []|].
      intros t Ht [<-|[]]. contradiction.
    - intros t Ht. apply in_app_or in Ht as [Ht|[<-|[]]].
      + apply Hold in Ht. lia.
      + unfold new_thread. simpl. lia. }
  destruct (Nat.eq_dec
              (extension_groups_cnt_of_the_current_app (app e)
                 (cmd_extension_groups_info
                    (original_start_graph_cmd_of_enabling_engine e)))
              (S (List.length (extension_threads (extension_context e)))))
    as [Heq|Hne].
  - destruct (Hlast Heq) as (He & Hg & Hfind).
    destruct (find_extension_group_info _ _ _) as [info|] eqn:Hinfo;
      [|contradiction].
    rewrite (callback_completes e g info Hlive He Hg Hdef Heq Hinfo).
    eexists. eexists. split; [reflexivity|].
    split; [reflexivity|]. split; [exact Hnew|]. split; [reflexivity|].
    split; [reflexivity|]. now apply Hfresh.
  - rewrite (callback_registers e g Hlive Hdef Hne).
    eexists. eexists. split; [reflexivity|].
    split; [reflexivity|]. split; [exact Hnew|]. split; [reflexivity|].
    split; [reflexivity|]. now apply Hfresh.
Qed.

Lemma callback_registers_one_new_thread_witness :
  exists g' e',
    ten_extension_context_create_extension_group_done
      (created_extension_group (local_group "custom_group_addon" "group_b"))
      two_groups_engine = Done (g', e')
    /\ extension_threads (extension_context e') = [mk_thread 0 "group_b"]
    /\ handles_fresh e'.
Proof.
  destruct (callback_registers_one_new_thread two_groups_engine
              (created_extension_group
                 (local_group "custom_group_addon" "group_b")))
    as (g' & e' & Hrun & Hth & _ & _ & _ & Hfresh).
  - reflexivity.
  - discriminate.
  - simpl. discriminate.
  - split; [constructor|intros t []].
  - exists g', e'. split; [exact Hrun|]. split; [exact Hth|exact Hfresh].
Defined.

Lemma get_extension_info_by_name_run e a g n check_thread :
  signature (extension_context e) = true ->
  ten_extension_context_get_extension_info_by_name (Some a) g (Some n)
    check_thread e
  = Done (find (answers_query (Some a) g (Some n))
            (extensions_info_from_graph (extension_context e)), e).
Proof.
  intros Hlive. unfold ten_extension_context_get_extension_info_by_name.
  rewrite (bind_done _ _ _ _ _ (check_self_live e check_thread Hlive)).
  simpl. unfold bind at 1. rewrite TEN_ASSERT_true.
  unfold bind, get, ret. now rewrite find_extension_info_is_find.
Qed.

Lemma get_extension_group_name_run e a g n check_thread :
  signature (extension_context e) = true ->
  ten_extension_context_get_extension_group_name (Some a) g (Some n)
    check_thread e
  = Done (option_map extension_group_name
            (find (answers_query (Some a) g (Some n))
               (extensions_info_from_graph (extension_context e))), e).
Proof.
  intros Hlive. unfold ten_extension_context_get_extension_group_name.
  rewrite (bind_done _ _ _ _ _ (check_self_live e check_thread Hlive)).
  rewrite (bind_done _ _ _ _ _
             (get_extension_info_by_name_run e a g n check_thread Hlive)).
  destruct (find _ _); reflexivity.
Qed.

Lemma answers_full_query a g n i :
  answers_query (Some a) (Some g) (Some n) i = true
  <-> ei_loc i = mk_loc a g n.
Proof.
  unfold answers_query, field_agrees.
  rewrite !andb_true_iff, !String.eqb_eq.
  destruct (ei_loc i) as [a' g' n']. simpl. split.
  - intros [[-> ->] ->]. reflexivity.
  - intros [= -> -> ->]. auto.
Qed.

Lemma find_own_location l i :
  NoDup (map ei_loc l) -> In i l ->
  find (answers_query (Some (app_uri (ei_loc i))) (Some (graph_id (ei_loc i)))
          (Some (extension_name (ei_loc i)))) l = Some i.
Proof.
  induction l as [|x rest IH]; simpl; [intros _ []|].
  intros Hnd Hin. inversion Hnd as [|? ? Hx Hrest]; subst.
  destruct (answers_query _ _ _ x) eqn:Hq.
  - destruct Hin as [->|Hin]; [reflexivity|].
    apply answers_full_query in Hq. elim Hx.
    replace (ei_loc x) with (ei_loc i); [now apply in_map|].
    rewrite Hq. now destruct (ei_loc i).
  - destruct Hin as [->|Hin]; [|now apply IH].
    assert (Hself : answers_query (Some (app_uri (ei_loc i)))
                      (Some (graph_id (ei_loc i)))
                      (Some (extension_name (ei_loc i))) i = true).
    { apply answers_full_query. now destruct (ei_loc i). }
    rewrite Hself in Hq. discriminate.
Qed.

(** X9.  Looking an extension up by its own location gives it back.  On a
    live context whose extension infos have pairwise distinct locations,
    ten_extension_context_get_extension_info_by_name called with the app
    uri, graph id and extension name of any installed extension info
    returns that very record, and
    ten_extension_context_get_extension_group_name returns its group. *)
Theorem lookup_by_own_location
  (e : ten_engine_t) (i : ten_extension_info_t) (check_thread : bool) :
  signature (extension_context e) = true ->
  NoDup (map ei_loc (extensions_info_from_graph (extension_context e))) ->
  In i (extensions_info_from_graph (extension_context e)) ->
  ten_extension_context_get_extension_info_by_name
    (Some (app_uri (ei_loc i))) (Some (graph_id (ei_loc i)))
    (Some (extension_name (ei_loc i))) check_thread e
  = Done (Some i, e)
  /\ ten_extension_context_get_extension_group_name
       (Some (app_uri (ei_loc i))) (Some (graph_id (ei_loc i)))
       (Some (extension_name (ei_loc i))) check_thread e
     = Done (Some (extension_group_name i), e).
Proof.
  intros Hlive Hnd Hin.
  rewrite get_extension_info_by_name_run, get_extension_group_name_run
    by assumption.
  rewrite (find_own_location _ i Hnd Hin). split; reflexivity.
Qed.

Lemma lookup_by_own_location_witness :
  ten_extension_context_get_extension_info_by_name
    (Some "msgpack://127.0.0.1:8002/") (Some "graph_1")
    (Some "remote_extension") true running_engine
  = Done (Some remote_extension, running_engine)
  /\ ten_extension_context_get_extension_group_name
       (Some "msgpack://127.0.0.1:8002/") (Some "graph_1")
       (Some "remote_extension") true running_engine
     = Done (Some "remote_group", running_engine).
Proof.
  apply (lookup_by_own_location running_engine remote_extension true).
  - reflexivity.
  - simpl. repeat constructor; simpl; intuition discriminate.
  - simpl. auto.
Defined.

Lemma find_weaker {A : Type} (p q : A -> bool) (l : list A) (r : A) :
  (forall x, p x = true -> q x = true) ->
  find p l = Some r ->
  exists r', find q l = Some r'.
Proof.
  intros Hpq. induction l as [|x rest IH]; simpl; [discriminate|].
  destruct (q x) eqn:Hq; [intros _; now exists x|].
  destruct (p x) eqn:Hp; [now rewrite (Hpq x Hp) in Hq|exact IH].
Qed.

(** X10.  A NULL graph id is a wildcard, the other two arguments are
    required.  On a live context, whenever the lookup with a graph id finds
    a record, the lookup with the same app uri and extension name and a
    NULL graph id finds one too, with that app uri and that name; so a
    lookup without graph id that returns NULL rules out every graph.  A
    NULL app uri or a NULL extension name stops the lookup on its
    assertion, whatever the context holds. *)
Theorem null_graph_id_is_a_wildcard
  (e : ten_engine_t) (a n : string) (check_thread : bool) :
  signature (extension_context e) = true ->
  (forall g r,
     ten_extension_context_get_extension_info_by_name
       (Some a) (Some g) (Some n) check_thread e = Done (Some r, e) ->
     exists r',
       ten_extension_context_get_extension_info_by_name
         (Some a) None (Some n) check_thread e = Done (Some r', e)
       /\ app_uri (ei_loc r') = a
       /\ extension_name (ei_loc r') = n)
  /\ (ten_extension_context_get_extension_info_by_name
        (Some a) None (Some n) check_thread e = Done (None, e) ->
      forall g,
        ten_extension_context_get_extension_info_by_name
          (Some a) (Some g) (Some n) check_thread e = Done (None, e))
  /\ (forall g c_extension_name,
        ten_extension_context_get_extension_info_by_name
          None g c_extension_name check_thread e
        = Aborted "Should not happen.")
  /\ (forall c_app_uri g,
        ten_extension_context_get_extension_info_by_name
          c_app_uri g None check_thread e
        = Aborted "Should not happen.").
Proof.
  intros Hlive.
  assert (Hweak : forall g x,
            answers_query (Some a) (Some g) (Some n) x = true ->
            answers_query (Some a) None (Some n) x = true).
  { intros g x. unfold answers_query, field_agrees.
    rewrite !andb_true_iff. intros [[Ha _] Hn]. auto. }
  split; [|split; [|split]].
  - intros g r. rewrite !get_extension_info_by_name_run by assumption.
    intros [= Hfind].
    destruct (find_weaker _ _ _ _ (Hweak g) Hfind) as (r' & Hr').
    exists r'. rewrite Hr'. split; [reflexivity|].
    apply find_some in Hr' as [_ Hq]. unfold answers_query, field_agrees in Hq.
    apply andb_prop in Hq as [Hq Hn]. apply andb_prop in Hq as [Ha _].
    apply String.eqb_eq in Ha, Hn. auto.
  - rewrite get_extension_info_by_name_run by assumption.
    intros [= Hnone] g. rewrite get_extension_info_by_name_run by assumption.
    destruct (find (answers_query (Some a) (Some g) (Some n)) _) as [r|] eqn:Hr;
      [|reflexivity].
    destruct (find_weaker _ _ _ _ (Hweak g) Hr) as (r' & Hr').
    rewrite Hnone in Hr'. discriminate.
  - intros g c. unfold ten_extension_context_get_extension_info_by_name.
    rewrite (bind_done _ _ _ _ _ (check_self_live e check_thread Hlive)).
    reflexivity.
  - intros c g. unfold ten_extension_context_get_extension_info_by_name.
    rewrite (bind_done _ _ _ _ _ (check_self_live e check_thread Hlive)).
    destruct c; reflexivity.
Qed.

Lemma null_graph_id_is_a_wildcard_witness :
  exists r',
    ten_extension_context_get_extension_info_by_name
      (Some "msgpack://127.0.0.1:8001/") None (Some "ext_2") false
      running_engine = Done (Some r', running_engine)
    /\ app_uri (ei_loc r') = "msgpack://127.0.0.1:8001/"
    /\ extension_name (ei_loc r') = "ext_2".
Proof.
  destruct (null_graph_id_is_a_wildcard running_engine
              "msgpack://127.0.0.1:8001/" "ext_2" false eq_refl)
    as (Hwild & _).
  apply (Hwild "graph_1" (local_extension "addon_2" "ext_2" "group_b")).
  reflexivity.
Defined.

(** X17.  After a failed start nothing is ever started.  Take an engine
    whose context was just created and a command in which some group of
    this app has an addon that cannot be found.
    ten_extension_context_start_extension_group returns false, but the
    creations of the groups before the failing one were already posted.
    When those complete, in any order, each completion callback registers
    its thread and nothing more: the number of registered threads stays
    below the number of group infos of this app, so the graph is never
    installed, nothing is logged and no thread is started. *)
Theorem failed_start_never_starts_a_thread
  (addon_found : string -> bool)
  (a : ten_app_t) (id gname : string) (cmd : ten_cmd_start_graph_t)
  (uninitialised_total_cnt : nat) (err : option ten_error_t)
  (g : ten_extension_group_info_t) :
  let e := engine_with_fresh_context a id gname cmd uninitialised_total_cnt in
  start_graph_with_one_dest cmd = true ->
  In g (cmd_extension_groups_info cmd) ->
  is_local a g = true ->
  addon_found (extension_group_addon_name g) = false ->
  exists e1 err' posted g1,
    ten_extension_context_start_extension_group addon_found err e
    = Done ((false, err'), e1)
    /\ effects e1
       = effects e ++ map creation_request posted
                   ++ [Log LOGE (failed_to_start_line e g1)]
    /\ forall order,
         Permutation order posted ->
         exists gs e2,
           complete_creations order e1 = Done (gs, e2)
           /\ effects e2 = effects e1
           /\ filter is_thread_start (effects e2) = []
           /\ filter is_graph_resources_log (effects e2) = []
           /\ extensions_info_from_graph (extension_context e2) = []
           /\ extension_groups_info_from_graph (extension_context e2) = []
           /\ List.length (extension_threads (extension_context e2))
              = List.length posted.
Proof.
  intros e Hcmd Hin Hloc Hmiss.
  destruct (find (unresolved addon_found a) (cmd_extension_groups_info cmd))
    as [g1|] eqn:Hfind.
  2:{ pose proof (find_none _ _ Hfind g Hin) as Hno. unfold unresolved in Hno.
      unfold is_local in Hloc. rewrite Hloc, Hmiss in Hno. discriminate. }
  destruct (find_first _ _ _ Hfind) as (before & after & Hsplit & Hg1 & Hbefore).
  unfold unresolved in Hg1. apply andb_prop in Hg1 as [Hl1 Hm1].
  apply negb_true_iff in Hm1.
  assert (Hfound : forall i, In i before -> is_local a i = true ->
                     addon_found (extension_group_addon_name i) = true).
  { intros i Hi Hli. specialize (Hbefore i Hi). unfold unresolved in Hbefore.
    unfold is_local in Hli. rewrite Hli in Hbefore. simpl in Hbefore.
    now apply negb_false_iff in Hbefore. }
  exists (with_effects
            (map creation_request (filter (is_local a) before)
             ++ [Log LOGE (failed_to_start_line e g1)]) e).
  eexists. exists (filter (is_local a) before), g1.
  split; [|split].
  - rewrite start_extension_group_nonempty.
    + change (original_start_graph_cmd_of_enabling_engine e) with cmd.
      rewrite Hsplit.
      now apply (start_each_extension_group_stops_any addon_found before g1
                   after err e).
    + reflexivity.
    + change (original_start_graph_cmd_of_enabling_engine e) with cmd.
      rewrite Hsplit. now destruct before.
  - reflexivity.
  - intros order Hperm.
    destruct (complete_creations_registers order
                (with_effects
                   (map creation_request (filter (is_local a) before)
                    ++ [Log LOGE (failed_to_start_line e g1)]) e))
      as (gs & Hgs & _).
    + reflexivity.
    + exact Hcmd.
    + simpl. rewrite (Permutation_length Hperm), Hsplit.
      rewrite cnt_of_the_current_app_is_length, filter_app, length_app.
      cbn [filter]. fold (is_local a g1) in Hl1. rewrite Hl1.
      cbn [List.length]. lia.
    + exists gs. eexists. split; [exact Hgs|].
      rewrite registered_all_explicit. simpl.
      rewrite !filter_app, no_thread_start_in_requests,
        no_graph_resources_in_requests. simpl.
      repeat split; try reflexivity.
      rewrite <- (length_map thread_id), threads_for_ids, length_seq.
      now apply Permutation_length.
Qed.

Lemma failed_start_never_starts_a_thread_witness :
  exists e1 err' posted,
    ten_extension_context_start_extension_group all_but_does_not_exist None
      missing_addon_engine = Done ((false, err'), e1)
    /\ forall order,
         Permutation order posted ->
         exists gs e2,
           complete_creations order e1 = Done (gs, e2)
           /\ filter is_thread_start (effects e2) = [].
Proof.
  destruct (failed_start_never_starts_a_thread all_but_does_not_exist
              this_app "graph_1" EmptyString
              (original_start_graph_cmd_of_enabling_engine missing_addon_engine)
              0 None (local_group "does_not_exist" "group_b"))
    as (e1 & err' & posted & g1 & Hrun & _ & Hlater).
  - reflexivity.
  - simpl. auto.
  - reflexivity.
  - reflexivity.
  - exists e1, err', posted. split; [exact Hrun|].
    intros order Hperm.
    destruct (Hlater order Hperm) as (gs & e2 & Hgs & _ & Hno & _).
    exists gs, e2. split; [exact Hgs|exact Hno].
Defined.

End ExtensionContextTheory.

(** ** env_tester_log.c *)

Module PyTesterLogTheory.

Import ExtensionContext PyTesterLog.

Lemma parse_needs_eight args a :
  PyArg_ParseTuple_izzizsbO args = Some a -> List.length args = 8.
Proof.
  unfold PyArg_ParseTuple_izzizsbO.
  destruct args as [|a1 [|a2 [|a3 [|a4 [|a5 [|a6 [|a7 [|a8 [|a9 rest]]]]]]]]];
    try discriminate.
  reflexivity.
Qed.

(** C7 (as amended).  When the proxy of the Python tester has been torn
    down, ten_py_ten_env_tester_log never allocates a context and never
    posts a task: the tester object is left as it was.  A call whose
    argument tuple parses (eight arguments of the types izzizsbO) returns
    the error object with code TenIsClosed; a call with another number of
    arguments, or with arguments that do not parse, raises ValueError, as
    it does with a live proxy. *)
Theorem tester_log_after_close
  (self : ten_py_ten_env_tester_t) (args : list PyObject) :
  c_ten_env_tester_proxy self = None ->
  snd (ten_py_ten_env_tester_log self args) = self
  /\ (forall a, PyArg_ParseTuple_izzizsbO args = Some a ->
        fst (ten_py_ten_env_tester_log self args)
        = Wrapped_error
            {| error_code := TEN_ERROR_CODE_TEN_IS_CLOSED;
               error_message :=
                 "ten_env_tester.log() failed because ten is closed." |})
  /\ (List.length args <> 8 ->
        fst (ten_py_ten_env_tester_log self args)
        = Raised_value_error "Invalid argument count when ten_env_tester.log.")
  /\ (List.length args = 8 -> PyArg_ParseTuple_izzizsbO args = None ->
        fst (ten_py_ten_env_tester_log self args)
        = Raised_value_error
            "Failed to parse argument when ten_env_tester.log.").
Proof.
  intros Hclosed. unfold ten_py_ten_env_tester_log.
  destruct (Nat.eqb_spec (List.length args) 8) as [Hlen|Hlen]; simpl.
  - destruct (PyArg_ParseTuple_izzizsbO args) as [a|] eqn:Hparse.
    + rewrite Hclosed. simpl. repeat split; try reflexivity.
      * intros Hne. now elim Hne.
      * discriminate.
    + simpl. repeat split; try reflexivity.
      * discriminate.
      * intros Hne. now elim Hne.
  - repeat split; try reflexivity.
    + intros a Hparse. apply parse_needs_eight in Hparse. now elim Hlen.
    + intros Heq. now elim Hlen.
Qed.

Lemma tester_log_after_close_witness :
  ten_py_ten_env_tester_log closed_tester well_formed_args
  = (Wrapped_error
       {| error_code := TEN_ERROR_CODE_TEN_IS_CLOSED;
          error_message :=
            "ten_env_tester.log() failed because ten is closed." |},
     closed_tester).
Proof.
  destruct (tester_log_after_close closed_tester well_formed_args eq_refl)
    as (Hstate & Herr & _).
  rewrite (surjective_pairing (ten_py_ten_env_tester_log _ _)).
  rewrite Hstate, (Herr _ eq_refl). reflexivity.
Defined.

(** C7 (as stated) fails: with the proxy torn down, a call with fewer than
    eight arguments is answered with ValueError, not with the TenIsClosed
    error; the argument checks come before the proxy check. *)
Lemma tester_log_after_close_bad_arguments :
  c_ten_env_tester_proxy closed_tester = None
  /\ ten_py_ten_env_tester_log closed_tester [PyLong 3; PyUnicode "hello"]
     = (Raised_value_error "Invalid argument count when ten_env_tester.log.",
        closed_tester)
  /\ ten_py_ten_env_tester_log open_tester well_formed_args
     = (Py_RETURN_NONE,
        mk_py_tester (Some (mk_proxy None))
          [ten_env_tester_notify_log_ctx_create 3 (Some "on_start")
             (Some "test.py") 12 (Some "hello") None false None 0]
          [ten_env_tester_notify_log_ctx_create 3 (Some "on_start")
             (Some "test.py") 12 (Some "hello") None false None 0]).
Proof. repeat split. Qed.

(** *** Further properties of env_tester_log.c *)

(** X11.  The binding changes the tester only when it returns None, and
    then by exactly one posted task.  For every tester and every argument
    tuple: the proxy is never replaced; when the result is None one context
    was appended to the posted tasks; when the result is an error object or
    a raised ValueError the tester is exactly as it was, no context stays
    allocated and nothing was posted. *)
Theorem tester_log_posts_only_on_success
  (self : ten_py_ten_env_tester_t) (args : list PyObject) :
  c_ten_env_tester_proxy (snd (ten_py_ten_env_tester_log self args))
  = c_ten_env_tester_proxy self
  /\ (fst (ten_py_ten_env_tester_log self args) = Py_RETURN_NONE ->
      exists ctx,
        posted (snd (ten_py_ten_env_tester_log self args))
        = posted self ++ [ctx])
  /\ (fst (ten_py_ten_env_tester_log self args) <> Py_RETURN_NONE ->
      snd (ten_py_ten_env_tester_log self args) = self).
Proof.
  unfold ten_py_ten_env_tester_log.
  destruct (negb (List.length args =? 8)%nat);
    [simpl; split; [reflexivity|split; [discriminate|reflexivity]]|].
  destruct (PyArg_ParseTuple_izzizsbO args) as [a|];
    [|simpl; split; [reflexivity|split; [discriminate|reflexivity]]].
  destruct (c_ten_env_tester_proxy self) as [proxy|] eqn:Hproxy;
    [|simpl; split; [now rewrite Hproxy|split; [discriminate|reflexivity]]].
  destruct (arg_fields_buf_obj a);
    try (simpl; split; [now rewrite Hproxy|split; [discriminate|reflexivity]]);
    (destruct (notify_failure proxy);
     [simpl; split; [now rewrite Hproxy|split; [discriminate|reflexivity]]|]);
    destruct (arg_sync a); simpl;
    (split; [reflexivity|split; [intros _; eexists; reflexivity|]]);
    intros H; now elim H.
Qed.

Lemma parse_line_no_is_an_int args a :
  PyArg_ParseTuple_izzizsbO args = Some a ->
  (- 2 ^ 31 <= arg_line_no a < 2 ^ 31)%Z.
Proof.
  unfold PyArg_ParseTuple_izzizsbO.
  destruct args as [|a1 [|a2 [|a3 [|a4 [|a5 [|a6 [|a7 [|a8 [|a9 rest]]]]]]]]];
    try discriminate.
  destruct (format_i a1), (format_z a2), (format_z a3),
    (format_i a4) as [v|] eqn:H4, (format_z a5), (format_s a6), (format_b a7);
    try discriminate.
  intros [= <-]. cbn [arg_line_no].
  unfold format_i in H4. destruct a4 as [|w| | |]; try discriminate.
  destruct ((- 2 ^ 31 <=? w) && (w <? 2 ^ 31))%Z eqn:Hr; [|discriminate].
  injection H4 as <-. apply andb_prop in Hr as [Hlo Hhi].
  apply Z.leb_le in Hlo. apply Z.ltb_lt in Hhi. split; assumption.
Qed.

Lemma int_stored_in_size_t_value (v : Z) :
  (- 2 ^ 31 <= v < 2 ^ 31)%Z ->
  int_stored_in_size_t v = (if v <? 0 then 2 ^ 32 + v else v)%Z.
Proof.
  intros Hv. unfold int_stored_in_size_t.
  change (2 ^ 31)%Z with 2147483648%Z in Hv.
  change (2 ^ 32)%Z with 4294967296%Z.
  destruct (Z.ltb_spec v 0) as [Hneg|Hpos].
  - symmetry. apply (Z.mod_unique v 4294967296 (-1)); [left|]; lia.
  - apply Z.mod_small. lia.
Qed.

(** X12.  What Python passes is what the tester logs, the line number
    apart.  With a live proxy that takes the task, an argument tuple that
    parses and a fields object that is None or bytes, the binding returns
    None and posts one context; the task run from that context calls
    ten_env_tester_log with the level, function name, file name, message
    and category that were passed, a None string arriving as the empty
    string, and with the fields bytes, empty bytes arriving as no buffer.
    The line number is parsed as a C int into a size_t that was set to 0:
    a line number that is not negative arrives as passed, a negative one v
    arrives as 2^32 + v.  The context is destroyed exactly once: by the
    task for an async call, in which case it is still allocated when the
    binding returns, and by the waiting caller for a sync call. *)
Theorem tester_log_passes_its_arguments
  (self : ten_py_ten_env_tester_t) (args : list PyObject)
  (proxy : ten_env_tester_proxy_t) (a : log_args)
  (fields : option (list Byte.byte)) :
  c_ten_env_tester_proxy self = Some proxy ->
  notify_failure proxy = None ->
  PyArg_ParseTuple_izzizsbO args = Some a ->
  fields_of (arg_fields_buf_obj a) = Some fields ->
  exists ctx,
    ten_py_ten_env_tester_log self args
    = (Py_RETURN_NONE,
       mk_py_tester (Some proxy)
         (live_ctxs self ++ (if arg_sync a then [] else [ctx]))
         (posted self ++ [ctx]))
    /\ fst (ten_py_ten_env_tester_log_proxy_notify ctx)
       = {| call_level := arg_level a;
            call_func_name := c_str_or_empty (arg_func_name a);
            call_file_name := c_str_or_empty (arg_file_name a);
            call_line_no :=
              (if arg_line_no a <? 0 then 2 ^ 32 + arg_line_no a
               else arg_line_no a)%Z;
            call_msg := arg_msg a;
            call_category := c_str_or_empty (arg_category a);
            call_fields_buf := fields;
            call_fields_buf_size :=
              match fields with Some b => List.length b | None => 0%nat end |}
    /\ snd (ten_py_ten_env_tester_log_proxy_notify ctx) = negb (arg_sync a).
Proof.
  intros Hproxy Hnotify Hparse Hfields.
  pose proof (int_stored_in_size_t_value _ (parse_line_no_is_an_int _ _ Hparse))
    as Hline.
  unfold ten_py_ten_env_tester_log.
  rewrite (parse_needs_eight args a Hparse).
  cbn -[int_stored_in_size_t Z.pow Z.ltb Z.add].
  rewrite Hparse, Hproxy.
  destruct (arg_fields_buf_obj a) as [| | |b|]; try discriminate;
    simpl in Hfields; injection Hfields as <-; rewrite Hnotify.
  - destruct (arg_sync a); eexists;
      (split; [rewrite ?app_nil_r; reflexivity|]);
      cbn -[int_stored_in_size_t Z.pow Z.ltb Z.add]; rewrite Hline;
      split; reflexivity.
  - destruct b as [|x b'];
      destruct (arg_sync a); eexists;
      (split; [rewrite ?app_nil_r; reflexivity|]);
      cbn -[int_stored_in_size_t Z.pow Z.ltb Z.add]; rewrite Hline;
      split; reflexivity.
Qed.

Lemma tester_log_passes_its_arguments_witness :
  exists ctx,
    ten_py_ten_env_tester_log open_tester negative_line_args
    = (Py_RETURN_NONE, mk_py_tester (Some (mk_proxy None)) [ctx] [ctx])
    /\ call_msg (fst (ten_py_ten_env_tester_log_proxy_notify ctx)) = "hello"
    /\ call_line_no (fst (ten_py_ten_env_tester_log_proxy_notify ctx))
       = 4294967295%Z.
Proof.
  destruct (tester_log_passes_its_arguments open_tester negative_line_args
              (mk_proxy None)
              (mk_log_args 3 (Some "on_start") (Some "test.py") (-1) None
                 "hello" false Py_None) None eq_refl eq_refl eq_refl eq_refl)
    as (ctx & Hrun & Hcall & _).
  exists ctx. split; [exact Hrun|]. rewrite Hcall. split; reflexivity.
Defined.

(** X13.  A fields object that is neither None nor bytes is refused with
    ValueError, but only after the proxy check: on a live tester such a
    call raises ValueError and leaves the tester as it was, on a tester
    whose proxy is gone the same call returns the TenIsClosed error.  When
    the proxy refuses the task, its error is returned and the context that
    was made for the task is destroyed again. *)
Theorem tester_log_late_failures
  (self : ten_py_ten_env_tester_t) (args : list PyObject) (a : log_args) :
  PyArg_ParseTuple_izzizsbO args = Some a ->
  (fields_of (arg_fields_buf_obj a) = None ->
   ten_py_ten_env_tester_log self args
   = (match c_ten_env_tester_proxy self with
      | Some _ => Raised_value_error "fields_buf must be bytes or None."
      | None => Wrapped_error ten_is_closed_error
      end, self))
  /\ (forall proxy err,
        c_ten_env_tester_proxy self = Some proxy ->
        notify_failure proxy = Some err ->
        fields_of (arg_fields_buf_obj a) <> None ->
        ten_py_ten_env_tester_log self args = (Wrapped_error err, self)).
Proof.
  intros Hparse. unfold ten_py_ten_env_tester_log.
  rewrite (parse_needs_eight args a Hparse). simpl. rewrite Hparse. split.
  - intros Hfields. destruct (c_ten_env_tester_proxy self); [|reflexivity].
    destruct (arg_fields_buf_obj a); try discriminate; reflexivity.
  - intros proxy err -> Hnotify Hfields.
    destruct (arg_fields_buf_obj a); try (now elim Hfields);
      now rewrite Hnotify.
Qed.

Lemma tester_log_late_failures_witness :
  ten_py_ten_env_tester_log open_tester
    [PyLong 3; Py_None; Py_None; PyLong 12; Py_None; PyUnicode "hello";
     PyLong 1; PyUnicode "not bytes"]
  = (Raised_value_error "fields_buf must be bytes or None.", open_tester).
Proof.
  destruct (tester_log_late_failures open_tester
              [PyLong 3; Py_None; Py_None; PyLong 12; Py_None;
               PyUnicode "hello"; PyLong 1; PyUnicode "not bytes"]
              (mk_log_args 3 None None 12 None "hello" true
                 (PyUnicode "not bytes")) eq_refl) as (Hbad & _).
  exact (Hbad eq_refl).
Defined.

End PyTesterLogTheory.

(** ** The long_running app *)

Module LongRunningTheory.

Import LongRunning.

Lemma deliveries_add a b s :
  deliveries (a + b) s = deliveries b (deliveries a s).
Proof. revert s. induction a as [|a IH]; intros s; simpl; auto. Qed.

(** While the counter of extension_1 is below 100, a round trip takes the
    graph back to where it was, with the counter one higher. *)
Lemma one_round_trip k h :
  k < 100 ->
  deliveries 2
    (mk_graph_state k [(extension_2, test_cmd_from_1)] h None)
  = mk_graph_state (S k) [(extension_2, test_cmd_from_1)] (h ++ round_trip) None.
Proof.
  intros Hk. apply Nat.ltb_lt in Hk. unfold deliveries, deliver at 2.
  cbn -[Nat.ltb]. unfold deliver. cbn -[Nat.ltb]. rewrite Hk.
  cbn -[Nat.ltb]. rewrite <- app_assoc. reflexivity.
Qed.

Lemma round_trips_below_100 k :
  k <= 100 ->
  deliveries (2 * k) started
  = mk_graph_state k [(extension_2, test_cmd_from_1)]
      (history started ++ round_trips k) None.
Proof.
  induction k as [|k IH]; intros Hk.
  - reflexivity.
  - replace (2 * S k) with (2 * k + 2) by lia.
    rewrite deliveries_add, IH by lia.
    rewrite one_round_trip by lia. cbn [round_trips]. now rewrite app_assoc.
Qed.

Lemma deliveries_after_exit n s :
  exit_status s <> None -> deliveries n s = s.
Proof.
  intros Hexit. induction n as [|n IH]; simpl; [reflexivity|].
  replace (deliver s) with s; [exact IH|].
  unfold deliver. destruct (exit_status s); [reflexivity|now elim Hexit].
Qed.

(** C9 (as amended).  extension_1 sends test_cmd_from_1 from on_start.  In
    every round trip extension_2 receives it, replies OK and sends
    test_cmd_from_2, and extension_1 receives that, replies OK and, its
    counter being below 100, counts and sends test_cmd_from_1 again: after
    k round trips, k at most 100, the counter is k and test_cmd_from_1 is in
    flight.  The 101st round trip finds the counter at 100 and ends with
    CloseApp instead, whose single destination has the empty app uri.  The
    app then closes: both extensions acknowledge on_deinit and the process
    exits with 0.  Over the whole run extension_1 received test_cmd_from_2
    101 times, sent test_cmd_from_1 101 times (once from on_start, 100
    times from on_cmd) and sent CloseApp once. *)
Theorem ping_pong_closes_after_101_round_trips :
  (forall k, k <= 100 ->
     deliveries (2 * k) started
     = mk_graph_state k [(extension_2, test_cmd_from_1)]
         (history started ++ round_trips k) None)
  /\ round_trip
     = [Received extension_2 test_cmd_from_1;
        Called extension_2
          (log_info "test_cmd_from_1 received with detailed fields"
             fields_from_1);
        Called extension_2 (return_result TEN_STATUS_CODE_OK "test_cmd_from_1");
        Called extension_2 (ten_random_sleep_range_ms 1000 2000);
        Called extension_2 (log_info "test_cmd_from_2 sent" []);
        Called extension_2 (send_cmd test_cmd_from_2);
        Received extension_1 test_cmd_from_2;
        Called extension_1
          (log_info "test_cmd_from_2 received with detailed fields"
             fields_from_2);
        Called extension_1 (return_result TEN_STATUS_CODE_OK "test_cmd_from_2");
        Called extension_1 (ten_random_sleep_range_ms 1000 2000);
        Called extension_1 (log_info "test_cmd_from_1 sent" []);
        Called extension_1 (send_cmd test_cmd_from_1)]
  /\ deliveries 202 started
     = mk_graph_state 100 [(the_app, close_app)]
         (history started ++ round_trips 100 ++ last_round_trip) None
  /\ dests close_app = [mk_loc_t (Some EmptyString) None None]
  /\ deliveries 203 started
     = mk_graph_state 100 []
         (history started ++ round_trips 100 ++ last_round_trip
          ++ Received the_app close_app :: shutdown)
         (Some 0%Z)
  /\ (forall n, deliveries (203 + n) started = deliveries 203 started)
  /\ List.length
       (filter is_received_from_2 (history (deliveries 203 started))) = 101
  /\ List.length
       (filter is_sent_from_1 (history (deliveries 203 started))) = 101
  /\ filter is_close_app_sent (history (deliveries 203 started))
     = [Called extension_1 (send_cmd close_app)]
  /\ In (Called extension_1 on_deinit_done) (history (deliveries 203 started))
  /\ In (Called extension_2 on_deinit_done) (history (deliveries 203 started))
  /\ exit_status (deliveries 203 started) = Some 0%Z.
Proof.
  assert (H202 : deliveries 202 started
                 = mk_graph_state 100 [(the_app, close_app)]
                     (history started ++ round_trips 100 ++ last_round_trip)
                     None).
  { change 202 with (2 * 100 + 2).
    rewrite deliveries_add, round_trips_below_100 by lia.
    unfold deliveries, deliver at 2. cbn -[round_trips].
    unfold deliver. cbn -[round_trips]. rewrite <- !app_assoc. reflexivity. }
  assert (H203 : deliveries 203 started
                 = mk_graph_state 100 []
                     (history started ++ round_trips 100 ++ last_round_trip
                      ++ Received the_app close_app :: shutdown)
                     (Some 0%Z)).
  { change 203 with (202 + 1). rewrite deliveries_add, H202.
    unfold deliveries, deliver. cbn -[round_trips last_round_trip shutdown].
    rewrite <- !app_assoc. reflexivity. }
  split; [exact round_trips_below_100|]. split; [reflexivity|].
  split; [exact H202|]. split; [reflexivity|]. split; [exact H203|].
  split.
  { intros n. rewrite deliveries_add. apply deliveries_after_exit.
    rewrite H203. discriminate. }
  rewrite H203. cbn [history exit_status].
  split; [vm_compute; reflexivity|]. split; [vm_compute; reflexivity|].
  split; [vm_compute; reflexivity|].
  assert (Hin : forall x, In x shutdown ->
                  In x (history started ++ round_trips 100 ++ last_round_trip
                        ++ Received the_app close_app :: shutdown)).
  { intros x Hx. do 3 (apply in_or_app; right). now right. }
  split; [|split; [|reflexivity]]; apply Hin; simpl; auto.
Qed.

(** C9 (as stated) fails: after 100 round trips extension_1 has received
    test_cmd_from_2 100 times, its counter has just reached 100, and what
    it sent on the hundredth receipt is test_cmd_from_1 once more; no
    CloseApp has been sent and the app is running. *)
Lemma no_close_app_after_100_round_trips :
  deliveries 200 started
  = mk_graph_state 100 [(extension_2, test_cmd_from_1)]
      (history started ++ round_trips 100) None
  /\ List.length
       (filter is_received_from_2 (history (deliveries 200 started))) = 100
  /\ filter is_close_app_sent (history (deliveries 200 started)) = []
  /\ exit_status (deliveries 200 started) = None.
Proof. vm_compute. repeat split. Qed.

(** *** Further properties of extension_1 *)

Lemma extension_1_on_cmd_other cnt c :
  is_from_2 c = false -> extension_1_on_cmd cnt c = (cnt, []).
Proof. unfold is_from_2, extension_1_on_cmd. now intros ->. Qed.

Lemma count_app (p : ten_env_call -> bool) l1 l2 :
  List.length (filter p (l1 ++ l2))
  = List.length (filter p l1) + List.length (filter p l2).
Proof. now rewrite filter_app, length_app. Qed.

(** X14.  extension_1 under any traffic.  Feed it any sequence of commands,
    starting from a counter of at most 100, and let n be the number of
    commands named test_cmd_from_2 among them.  Every one of those, and no
    other command, is answered with one OK result and followed by one
    command sent; the first 100 minus the counter of them are followed by
    test_cmd_from_1 and raise the counter, all later ones by CloseApp; the
    counter never passes 100. *)
Theorem extension_1_under_any_traffic (cnt : nat) (cmds : list cmd_t) :
  cnt <= 100 ->
  let n := List.length (filter is_from_2 cmds) in
  let resent := Nat.min n (100 - cnt) in
  fst (extension_1_receives cnt cmds) = cnt + resent
  /\ fst (extension_1_receives cnt cmds) <= 100
  /\ List.length (filter is_ok_result (snd (extension_1_receives cnt cmds))) = n
  /\ List.length (filter is_send (snd (extension_1_receives cnt cmds))) = n
  /\ List.length (filter is_resend (snd (extension_1_receives cnt cmds)))
     = resent
  /\ List.length (filter is_close_app (snd (extension_1_receives cnt cmds)))
     = n - resent.
Proof.
  revert cnt. induction cmds as [|c rest IH]; intros cnt Hcnt.
  - simpl. repeat split; lia.
  - cbn [extension_1_receives filter].
    destruct (is_from_2 c) eqn:Hc.
    + unfold extension_1_on_cmd. unfold is_from_2 in Hc. rewrite Hc.
      destruct (Nat.ltb_spec cnt 100) as [Hlt|Hge].
      * specialize (IH (S cnt) ltac:(lia)).
        destruct (extension_1_receives (S cnt) rest) as [cnt'' calls'].
        cbn [fst snd] in *. rewrite !count_app.
        destruct IH as (H1 & H2 & H3 & H4 & H5 & H6).
        rewrite H1, H3, H4, H5, H6. cbn [List.length]. simpl filter.
        cbn [List.length]. repeat split; lia.
      * specialize (IH cnt Hcnt).
        destruct (extension_1_receives cnt rest) as [cnt'' calls'].
        cbn [fst snd] in *. rewrite !count_app.
        destruct IH as (H1 & H2 & H3 & H4 & H5 & H6).
        rewrite H1, H3, H4, H5, H6. cbn [List.length]. simpl filter.
        cbn [List.length]. repeat split; lia.
    + rewrite (extension_1_on_cmd_other cnt c Hc).
      specialize (IH cnt Hcnt).
      destruct (extension_1_receives cnt rest) as [cnt'' calls'].
      cbn [fst snd app] in *. exact IH.
Qed.

Lemma extension_1_under_any_traffic_witness :
  fst (extension_1_receives 99
         [test_cmd_from_2; test_cmd_from_1; test_cmd_from_2; test_cmd_from_2])
  = 99 + Nat.min 3 (100 - 99)
  /\ List.length
       (filter is_close_app
          (snd (extension_1_receives 99
                  [test_cmd_from_2; test_cmd_from_1; test_cmd_from_2;
                   test_cmd_from_2])))
     = 3 - Nat.min 3 (100 - 99).
Proof.
  destruct (extension_1_under_any_traffic 99
              [test_cmd_from_2; test_cmd_from_1; test_cmd_from_2;
               test_cmd_from_2]) as (Hcnt & _ & _ & _ & _ & Hclose).
  - lia.
  - split; [exact Hcnt|exact Hclose].
Defined.

End LongRunningTheory.

(** ** board_pins_config_respeaker.c *)

Module BoardPinsTheory.

Import BoardPins.
Local Open Scope Z_scope.

(** X15.  The pin getters fail cleanly.  get_i2c_pins and get_i2s_pins
    answer ESP_OK exactly for the ports 0 and 1; whenever they answer
    ESP_FAIL on a structure, every pin field of the structure reads -1
    afterwards, whatever it held before, and one error line names the
    port; the fields that are not pins are never changed.  I2S port 1 is
    accepted but gets no pin at all.  On a NULL structure every getter
    answers ESP_FAIL and writes nothing. *)
Theorem pin_getters_fail_cleanly :
  (forall port c,
     exists r c' logs,
       get_i2c_pins port (Some c) = (r, Some c', logs)
       /\ (r = ESP_OK <-> port = 0 \/ port = 1)
       /\ i2c_other_fields c' = i2c_other_fields c
       /\ (r = ESP_FAIL ->
           sda_io_num c' = -1 /\ scl_io_num c' = -1
           /\ logs = [ESP_LOGE "i2c port %d is not supported" (Some port)]))
  /\ (forall port c,
        exists r c' logs,
          get_i2s_pins port (Some c) = (r, Some c', logs)
          /\ (r = ESP_OK <-> port = 0 \/ port = 1)
          /\ (port = 1 -> i2s_pins c' = [])
          /\ (r = ESP_FAIL ->
              c' = mk_i2s_pins (-1) (-1) (-1) (-1) (-1)
              /\ logs = [ESP_LOGE "i2s port %d is not supported" (Some port)]))
  /\ (forall port, get_i2c_pins port None = (ESP_FAIL, None, [null_pointer_line]))
  /\ (forall port, get_i2s_pins port None = (ESP_FAIL, None, [null_pointer_line]))
  /\ (forall d, get_spi_pins None d = (ESP_FAIL, None, d, [null_pointer_line]))
  /\ (forall c,
        get_spi_pins (Some c) None = (ESP_FAIL, Some c, None, [null_pointer_line])).
Proof.
  split; [|split; [|repeat split]].
  - intros port c. unfold get_i2c_pins, I2C_NUM_0, I2C_NUM_1.
    destruct (Z.eqb_spec port 0) as [->|H0]; simpl.
    + do 3 eexists. split; [reflexivity|]. simpl.
      repeat split; auto; discriminate.
    + destruct (Z.eqb_spec port 1) as [->|H1].
      * do 3 eexists. split; [reflexivity|]. simpl.
        repeat split; auto; discriminate.
      * do 3 eexists. split; [reflexivity|]. simpl.
        repeat split; auto; try discriminate. intros [?|?]; contradiction.
  - intros port c. unfold get_i2s_pins.
    destruct (Z.eqb_spec port 0) as [->|H0].
    + do 3 eexists. split; [reflexivity|].
      repeat split; auto; discriminate.
    + destruct (Z.eqb_spec port 1) as [->|H1].
      * do 3 eexists. split; [reflexivity|].
        repeat split; auto; discriminate.
      * do 3 eexists. split; [reflexivity|].
        repeat split; auto; try discriminate; try contradiction.
        intros [?|?]; contradiction.
Qed.

(** X16.  No GPIO is handed out twice.  Whatever the structures held
    before, after a successful get_i2c_pins and a successful get_i2s_pins,
    for any ports, the GPIO numbers written for the I2C bus and for the I2S
    bus are pairwise distinct, and a successful get_spi_pins hands out no
    GPIO at all. *)
Theorem pins_are_not_shared
  (i2c_port i2s_port : Z) (i2c : i2c_config_t) (i2s : board_i2s_pin_t)
  (spi : spi_bus_config_t) (device : spi_device_interface_config_t)
  (i2c' : i2c_config_t) (i2s' : board_i2s_pin_t)
  (logs1 logs2 : list esp_log) :
  get_i2c_pins i2c_port (Some i2c) = (ESP_OK, Some i2c', logs1) ->
  get_i2s_pins i2s_port (Some i2s) = (ESP_OK, Some i2s', logs2) ->
  NoDup (i2c_pins i2c' ++ i2s_pins i2s')
  /\ exists spi' device' logs3,
       get_spi_pins (Some spi) (Some device)
       = (ESP_OK, Some spi', Some device', logs3)
       /\ spi_pins spi' device' = [].
Proof.
  unfold get_i2c_pins, get_i2s_pins. intros H1 H2. split.
  - destruct ((i2c_port =? I2C_NUM_0) || (i2c_port =? I2C_NUM_1));
      [|discriminate].
    injection H1 as <- _.
    destruct (i2s_port =? 0); [injection H2 as <- _|].
    + unfold i2c_pins, i2s_pins, assigned. simpl.
      repeat constructor; simpl; intuition discriminate.
    + destruct (i2s_port =? 1); [injection H2 as <- _|discriminate].
      unfold i2c_pins, i2s_pins, assigned. simpl.
      repeat constructor; simpl; intuition discriminate.
  - do 3 eexists. split; reflexivity.
Qed.

Lemma pins_are_not_shared_witness :
  NoDup (i2c_pins (mk_i2c_config 5 6 [1; 400000])
         ++ i2s_pins (mk_i2s_pins 8 7 44 43 (-1))).
Proof.
  apply (pins_are_not_shared 1 0 stale_i2c stale_i2s
           (mk_spi_bus 0 0 0 0 0 []) (mk_spi_device 0 [])
           (mk_i2c_config 5 6 [1; 400000]) (mk_i2s_pins 8 7 44 43 (-1)) [] []);
    reflexivity.
Defined.

End BoardPinsTheory.
